(** * Verification of [process_sales_data] (src/main.py)

    A shallow embedding of the sales pipeline of src/main.py: the
    per-file stages (load, filter on the product, numeric conversion,
    derived [Sales] column, projection), the accumulation over the input
    files, and the final write.

    Modelling conventions.
    - A Python [str] is a [string]; [str.lower] folds the ASCII letters,
      which is exact on ASCII text (the data this program is run on).
    - A float64 is a [spec_float] of the Standard Library with the
      binary64 parameters; the float product is [SFmul 53 1024].
    - A DataFrame is a list of labelled rows plus the ordered list of its
      columns with their dtypes; a cell that a row does not hold reads as
      NaN, as pandas fills it.
    - [df.loc[:, c] = s] writes into the column [c] in place, as pandas 2
      does: a column that can hold the values of [s] keeps its dtype (an
      int64 column given whole floats stores them as integers), any other
      column is replaced by [s]. [pd.concat] gives a column the common
      dtype of its parts, turning integers into floats where the parts
      are int64 and float64.
    - An exception is a value of [exn]; code that can raise returns a
      [result]. Every constructor of [exn] stands for a subclass of
      Python's [Exception].
    - The file system and the console are the two components of [World].
      A path names a node by itself: the directories on the way to it are
      not part of the model, and what a write does with a path is read
      from [write_file]. A write replaces the whole file; lines end with
      a line feed.
    - The routines of pandas and CPython whose text grammars are not part
      of this repository (the CSV reader, [float(str)], the element
      parser of [pd.to_numeric], [repr] of a float) are the fields of the
      class [Library]; every theorem holds for every instance, and the
      module [Reference] gives an executable one. *)

From Stdlib Require Import ZArith Ascii String List Floats.SpecFloat Lia.
From stdpp Require Import base option list strings pretty gmap.

Open Scope string_scope.
Open Scope list_scope.
Open Scope Z_scope.

(** ** Text *)

Definition lower_ascii (c : ascii) : ascii :=
  let n := N_of_ascii c in
  if ((65 <=? n) && (n <=? 90))%N then ascii_of_N (n + 32) else c.

(** [str.lower()] *)
Fixpoint lower (s : string) : string :=
  match s with
  | EmptyString => EmptyString
  | String c s' => String (lower_ascii c) (lower s')
  end.

(** [re.sub('\$', '', s)]: every dollar sign is removed. *)
Fixpoint remove_dollar (s : string) : string :=
  match s with
  | EmptyString => EmptyString
  | String c s' =>
      if Ascii.eqb c "$"%char then remove_dollar s' else String c (remove_dollar s')
  end.

Fixpoint contains_char (c : ascii) (s : string) : bool :=
  match s with
  | EmptyString => false
  | String d s' => Ascii.eqb c d || contains_char c s'
  end.

Fixpoint join (sep : string) (l : list string) : string :=
  match l with
  | [] => ""
  | [x] => x
  | x :: l' => x +:+ sep +:+ join sep l'
  end.

Fixpoint concat_str (l : list string) : string :=
  match l with
  | [] => ""
  | x :: l' => x +:+ concat_str l'
  end.

(** ** Values and exceptions *)

Definition float := spec_float.

Definition fmul : float -> float -> float := SFmul 53 1024.

(** Conversion of an integer to the nearest float64. *)
Definition float_of_Z (z : Z) : float := binary_normalize 53 1024 z 0 false.

Inductive value :=
| VStr (s : string)
| VInt (z : Z)
| VFloat (f : float)
| VBool (b : bool).

Definition NaN : value := VFloat S754_nan.

Inductive dtype := object | int64 | float64 | bool_.

Inductive exn :=
| KeyError (key : string)
| AttributeError
| ValueError (text : string)
| TypeError
| ParserError
| OSError.

Inductive result (A : Type) :=
| Ok (a : A)
| Raise (e : exn).
Arguments Ok {A} a.
Arguments Raise {A} e.

#[global] Instance spec_float_eq_dec : EqDecision spec_float.
Proof. solve_decision. Defined.
#[global] Instance value_eq_dec : EqDecision value.
Proof. solve_decision. Defined.
#[global] Instance dtype_eq_dec : EqDecision dtype.
Proof. solve_decision. Defined.
#[global] Instance exn_eq_dec : EqDecision exn.
Proof. solve_decision. Defined.
#[global] Instance result_eq_dec {A} `{EqDecision A} : EqDecision (result A).
Proof. solve_decision. Defined.

Definition rbind {A B} (r : result A) (k : A -> result B) : result B :=
  match r with
  | Ok a => k a
  | Raise e => Raise e
  end.

Fixpoint rmapM {A B} (f : A -> result B) (l : list A) : result (list B) :=
  match l with
  | [] => Ok []
  | x :: l' => rbind (f x) (fun y => rbind (rmapM f l') (fun ys => Ok (y :: ys)))
  end.

(** A number as [pd.to_numeric] reads it from text. *)
Inductive number :=
| NInt (z : Z)
| NFloat (f : float).

(** ** Tables *)

Abbreviation Row := (gmap string value).

Record Table := {
  t_columns : list (string * dtype);
  t_rows : list Row
}.

Record DataFrame := {
  columns : list (string * dtype);
  rows : list (Z * Row)
}.

Record Series := {
  s_dtype : dtype;
  s_data : list (Z * value)
}.

#[global] Instance Table_eq_dec : EqDecision Table.
Proof. solve_decision. Defined.
#[global] Instance DataFrame_eq_dec : EqDecision DataFrame.
Proof. solve_decision. Defined.
#[global] Instance Series_eq_dec : EqDecision Series.
Proof. solve_decision. Defined.

(** The routines of pandas and CPython that read and print text. *)
Class Library := {
  (** the parser of [pd.read_csv] on the bytes of a file *)
  parse_csv : string -> result Table;
  (** [float(s)] on a [str]; [None] is [ValueError] *)
  float_of_str : string -> option float;
  (** one text element under [pd.to_numeric]; [None] is [ValueError] *)
  numeric_of_str : string -> option number;
  (** [repr] of a float that is not NaN *)
  float_repr : float -> string
}.

(** ** The pandas operations the program calls *)

Section Pandas.
Context {L : Library}.

(** A cell a row does not hold reads as NaN. *)
Definition cell (r : Row) (c : string) : value := default NaN (r !! c).

Fixpoint lookup_column (c : string) (cols : list (string * dtype)) : option dtype :=
  match cols with
  | [] => None
  | (c', d) :: cols' => if String.eqb c c' then Some d else lookup_column c cols'
  end.

(** [pd.read_csv]'s frame: the parsed table under a fresh RangeIndex. *)
Definition range_index {A} (l : list A) : list (Z * A) :=
  imap (fun i x => (Z.of_nat i, x)) l.

Definition frame_of_table (t : Table) : DataFrame :=
  {| columns := t_columns t; rows := range_index (t_rows t) |}.

(** [df[c]] *)
Definition getitem (df : DataFrame) (c : string) : result Series :=
  match lookup_column c (columns df) with
  | Some d => Ok {| s_dtype := d; s_data := map (fun ir => (ir.1, cell ir.2 c)) (rows df) |}
  | None => Raise (KeyError c)
  end.

Definition lower_value (v : value) : value :=
  match v with
  | VStr s => VStr (lower s)
  | _ => NaN
  end.

(** [s.str.lower()]: the accessor exists on object columns only; an
    element that is not a [str] becomes NaN. *)
Definition str_lower (s : Series) : result Series :=
  match s_dtype s with
  | object => Ok {| s_dtype := object; s_data := map (fun iv => (iv.1, lower_value iv.2)) (s_data s) |}
  | _ => Raise AttributeError
  end.

(** [s == lit] for a string literal: NaN compares unequal. *)
Definition eq_scalar (s : Series) (lit : string) : list bool :=
  map (fun iv => bool_decide (iv.2 = VStr lit)) (s_data s).

Fixpoint mask_rows {A} (l : list A) (mask : list bool) : list A :=
  match l, mask with
  | x :: l', b :: mask' => if b then x :: mask_rows l' mask' else mask_rows l' mask'
  | _, _ => []
  end.

(** [df[mask].copy()] *)
Definition getitem_mask (df : DataFrame) (mask : list bool) : DataFrame :=
  {| columns := columns df; rows := mask_rows (rows df) mask |}.

(** [df.empty] *)
Definition empty (df : DataFrame) : bool :=
  match rows df, columns df with
  | [], _ | _, [] => true
  | _, _ => false
  end.

Definition replace_value (v : value) : value :=
  match v with
  | VStr s => VStr (remove_dollar s)
  | _ => v
  end.

(** [s.replace({'\$': ''}, regex=True)] *)
Definition replace_dollar (s : Series) : Series :=
  {| s_dtype := s_dtype s; s_data := map (fun iv => (iv.1, replace_value iv.2)) (s_data s) |}.

Definition to_float (v : value) : result float :=
  match v with
  | VStr s => match float_of_str s with
              | Some f => Ok f
              | None => Raise (ValueError s)
              end
  | VInt z => Ok (float_of_Z z)
  | VFloat f => Ok f
  | VBool b => Ok (float_of_Z (Z.b2z b))
  end.

(** [s.astype(float)] *)
Definition astype_float (s : Series) : result Series :=
  rbind (rmapM (fun iv => rbind (to_float iv.2) (fun f => Ok (iv.1, VFloat f))) (s_data s))
        (fun d => Ok {| s_dtype := float64; s_data := d |}).

Definition numeric_value (v : value) : result value :=
  match v with
  | VStr s => match numeric_of_str s with
              | Some (NInt z) => Ok (VInt z)
              | Some (NFloat f) => Ok (VFloat f)
              | None => Raise (ValueError s)
              end
  | _ => Ok v
  end.

Definition is_float (v : value) : bool :=
  match v with
  | VFloat _ => true
  | _ => false
  end.

Definition upcast_float (v : value) : value :=
  match v with
  | VInt z => VFloat (float_of_Z z)
  | VBool b => VFloat (float_of_Z (Z.b2z b))
  | _ => v
  end.

(** [pd.to_numeric(s)]: each element is read as a number. A column of
    objects becomes an int64 column, or a float64 column when one of its
    elements is a float; a numeric column keeps its dtype. *)
Definition to_numeric (s : Series) : result Series :=
  rbind (rmapM (fun iv => rbind (numeric_value iv.2) (fun v => Ok (iv.1, v))) (s_data s))
        (fun d =>
           match s_dtype s with
           | object =>
               if existsb (fun iv => is_float iv.2) d
               then Ok {| s_dtype := float64;
                          s_data := map (fun iv => (iv.1, upcast_float iv.2)) d |}
               else Ok {| s_dtype := int64; s_data := d |}
           | t => Ok {| s_dtype := t; s_data := d |}
           end).

Fixpoint set_dtype (c : string) (d : dtype) (cols : list (string * dtype)) : list (string * dtype) :=
  match cols with
  | [] => [(c, d)]
  | (c', d') :: cols' =>
      if String.eqb c c' then (c, d) :: cols' else (c', d') :: set_dtype c d cols'
  end.

Fixpoint assign (c : string) (rs : list (Z * Row)) (vals : list (Z * value)) : list (Z * Row) :=
  match rs, vals with
  | ir :: rs', iv :: vals' => (ir.1, <[c := iv.2]> ir.2) :: assign c rs' vals'
  | _, _ => rs
  end.

(** The integer an int64 column stores for a float: the float has to be
    a whole number in the range of int64. *)
Definition int64_of_float (f : float) : option Z :=
  match f with
  | S754_zero _ => Some 0
  | S754_finite s m e =>
      let k := 2 ^ (- e) in
      if (0 <=? e) || (Zpos m mod k =? 0) then
        let n := if 0 <=? e then Zpos m * 2 ^ e else Zpos m / k in
        let z := if s then - n else n in
        if (- 2 ^ 63 <=? z) && (z <? 2 ^ 63) then Some z else None
      else None
  | _ => None
  end.

(** What a column of dtype [d] stores in place for an element of a
    series of dtype [t]; [None] when the column cannot hold the element:
    a column of objects holds anything, a numeric column holds the
    elements of its own dtype, an int64 column holds whole floats as
    integers and a float64 column holds integers as floats. *)
Definition hold_value (d t : dtype) (v : value) : option value :=
  match d, t, v with
  | object, _, _ => Some v
  | int64, int64, _ => Some v
  | float64, float64, _ => Some v
  | bool_, bool_, _ => Some v
  | int64, float64, VFloat f => VInt <$> int64_of_float f
  | float64, int64, VInt z => Some (VFloat (float_of_Z z))
  | _, _, _ => None
  end.

Definition hold (d : dtype) (s : Series) : option (list (Z * value)) :=
  mapM (fun iv => (fun v => (iv.1, v)) <$> hold_value d (s_dtype s) iv.2) (s_data s).

(** The column that [df.loc[:, c] = s] leaves in the frame: [s] written
    into the column [c] when the column holds every element of [s], and
    [s] itself otherwise, also when the frame has no column [c]. *)
Definition stored (df : DataFrame) (c : string) (s : Series) : Series :=
  match lookup_column c (columns df) with
  | Some d =>
      match hold d s with
      | Some data => {| s_dtype := d; s_data := data |}
      | None => s
      end
  | None => s
  end.

(** [df.loc[:, c] = s], for a series computed from [df] itself (the two
    carry the same index, so the alignment is positional). *)
Definition loc_setitem (df : DataFrame) (c : string) (s : Series) : DataFrame :=
  let s' := stored df c s in
  {| columns := set_dtype c (s_dtype s') (columns df);
     rows := assign c (rows df) (s_data s') |}.

Definition wrap64 (z : Z) : Z := (z + 2 ^ 63) mod 2 ^ 64 - 2 ^ 63.

Fixpoint repeat_str (n : nat) (s : string) : string :=
  match n with
  | O => ""
  | S n' => s +:+ repeat_str n' s
  end.

(** The product of two cells: a float operand makes the product a float
    (the other operand is converted first); two integers multiply in
    int64 when both columns are numeric, and as Python integers, without
    a bound, when one of the columns is a column of objects ([exact]);
    text is repeated by an integer and rejected otherwise. *)
Definition mul_value (exact : bool) (a b : value) : result value :=
  match a, b with
  | VFloat x, VFloat y => Ok (VFloat (fmul x y))
  | VFloat x, VInt y => Ok (VFloat (fmul x (float_of_Z y)))
  | VFloat x, VBool y => Ok (VFloat (fmul x (float_of_Z (Z.b2z y))))
  | VInt x, VFloat y => Ok (VFloat (fmul (float_of_Z x) y))
  | VBool x, VFloat y => Ok (VFloat (fmul (float_of_Z (Z.b2z x)) y))
  | VInt x, VInt y => Ok (VInt (if exact then x * y else wrap64 (x * y)))
  | VInt x, VBool y => Ok (VInt (x * Z.b2z y))
  | VBool x, VInt y => Ok (VInt (Z.b2z x * y))
  | VBool x, VBool y => Ok (if exact then VInt (Z.b2z x * Z.b2z y) else VBool (x && y))
  | VStr s, VInt n | VInt n, VStr s => Ok (VStr (repeat_str (Z.to_nat n) s))
  | VStr s, VBool n | VBool n, VStr s => Ok (VStr (repeat_str (Z.to_nat (Z.b2z n)) s))
  | VStr _, _ | _, VStr _ => Raise TypeError
  end.

Fixpoint mul_data (exact : bool) (a b : list (Z * value)) : result (list (Z * value)) :=
  match a, b with
  | x :: a', y :: b' =>
      rbind (mul_value exact x.2 y.2)
            (fun v => rbind (mul_data exact a' b') (fun l => Ok ((x.1, v) :: l)))
  | _, _ => Ok []
  end.

(** The dtype of the product of two columns. *)
Definition result_dtype (a b : dtype) : dtype :=
  match a, b with
  | object, _ | _, object => object
  | float64, _ | _, float64 => float64
  | int64, _ | _, int64 => int64
  | bool_, bool_ => bool_
  end.

(** [a * b] on two columns of one frame. *)
Definition mul_series (a b : Series) : result Series :=
  let t := result_dtype (s_dtype a) (s_dtype b) in
  rbind (mul_data (bool_decide (t = object)) (s_data a) (s_data b))
        (fun d => Ok {| s_dtype := t; s_data := d |}).

Definition project_row (cs : list string) (r : Row) : Row :=
  list_to_map (map (fun c => (c, cell r c)) cs).

(** [df[[c1, ..., cn]].copy()] *)
Definition getitem_list (df : DataFrame) (cs : list string) : result DataFrame :=
  rbind (rmapM (fun c => match lookup_column c (columns df) with
                         | Some d => Ok (c, d)
                         | None => Raise (KeyError c)
                         end) cs)
        (fun cols => Ok {| columns := cols;
                           rows := map (fun ir => (ir.1, project_row cs ir.2)) (rows df) |}).

Fixpoint new_name (m : list (string * string)) (c : string) : string :=
  match m with
  | [] => c
  | (old, new) :: m' => if String.eqb c old then new else new_name m' c
  end.

Definition rename_row (m : list (string * string)) (cs : list string) (r : Row) : Row :=
  list_to_map (map (fun c => (new_name m c, cell r c)) cs).

(** [df.rename(columns=m, inplace=True)] *)
Definition rename (m : list (string * string)) (df : DataFrame) : DataFrame :=
  {| columns := map (fun cd => (new_name m cd.1, cd.2)) (columns df);
     rows := map (fun ir => (ir.1, rename_row m (map fst (columns df)) ir.2)) (rows df) |}.

Definition has_column (c : string) (cols : list (string * dtype)) : bool :=
  match lookup_column c cols with
  | Some _ => true
  | None => false
  end.

Definition union_columns (acc cols : list (string * dtype)) : list (string * dtype) :=
  acc ++ List.filter (fun cd => negb (has_column cd.1 acc)) cols.

(** The dtype of a column made of parts of the dtypes [ds]: their dtype
    when they have one dtype, float64 for int64 and float64 parts, and
    object otherwise. *)
Definition common_dtype (ds : list dtype) : dtype :=
  match ds with
  | [] => object
  | d :: ds' =>
      if forallb (fun d' => bool_decide (d' = d)) ds' then d
      else if forallb (fun d' => bool_decide (d' = int64 \/ d' = float64)) ds then float64
      else object
  end.

(** A cell in a column of dtype [d] of the concatenation: an integer
    becomes a float in a float64 column. *)
Definition concat_value (d : dtype) (v : value) : value :=
  match d, v with
  | float64, VInt z => VFloat (float_of_Z z)
  | _, _ => v
  end.

Definition concat_row (cols : list (string * dtype)) (r : Row) : Row :=
  list_to_map (map (fun cd => (cd.1, concat_value cd.2 (cell r cd.1))) cols).

(** [pd.concat(dfs, ignore_index=True)]: the columns of the frames in
    the order they first appear, each with the common dtype of its
    parts, and the rows of the frames one frame after the other under a
    fresh RangeIndex. *)
Definition concat (dfs : list DataFrame) : result DataFrame :=
  match dfs with
  | [] => Raise (ValueError "No objects to concatenate")
  | _ =>
      let cols :=
        map (fun cd => (cd.1, common_dtype (omap (fun df => lookup_column cd.1 (columns df)) dfs)))
            (foldl union_columns [] (map columns dfs)) in
      Ok {| columns := cols;
            rows := range_index (map (concat_row cols)
                                     (flat_map (fun df => map snd (rows df)) dfs)) |}
  end.

(** [df.head()] *)
Definition head (df : DataFrame) : DataFrame :=
  {| columns := columns df; rows := take 5 (rows df) |}.

End Pandas.

(** ** The CSV text [DataFrame.to_csv] writes *)

Section Csv.
Context {L : Library}.

Definition dquote : ascii := ascii_of_nat 34.
Definition newline : ascii := ascii_of_nat 10.
Definition creturn : ascii := ascii_of_nat 13.

Fixpoint double_quotes (s : string) : string :=
  match s with
  | EmptyString => EmptyString
  | String c s' =>
      if Ascii.eqb c dquote then String dquote (String dquote (double_quotes s'))
      else String c (double_quotes s')
  end.

(** The csv writer, ending its lines with a line feed, quotes a field
    that holds the delimiter, a quote or a line feed; a carriage return
    alone is no reason to quote. *)
Definition needs_quote (s : string) : bool :=
  contains_char ","%char s || contains_char dquote s || contains_char newline s.

(** One field under the minimal quoting of the csv writer: a field that
    needs it is wrapped in quotes, with its quotes doubled; any other
    field is written as it is. *)
Definition csv_field (s : string) : string :=
  if needs_quote s then String dquote (double_quotes s +:+ String dquote "") else s.

(** The text of one cell: a missing value is the empty text. *)
Definition render_value (v : value) : string :=
  match v with
  | VStr s => s
  | VInt z => pretty z
  | VFloat S754_nan => ""
  | VFloat f => float_repr f
  | VBool true => "True"
  | VBool false => "False"
  end.

Definition csv_line (fields : list string) : string :=
  join "," (map csv_field fields) +:+ String newline "".

Definition csv_record (cols : list string) (r : Row) : string :=
  csv_line (map (fun c => render_value (cell r c)) cols).

(** [df.to_csv(path, index=False)]: the header, then one record per row. *)
Definition csv_text (df : DataFrame) : string :=
  let cols := map fst (columns df) in
  csv_line cols +:+ concat_str (map (fun ir => csv_record cols ir.2) (rows df)).

End Csv.

(** ** The world: files and console *)

Inductive node :=
| File (writable : bool) (data : string)
| Dir.

(** What the program prints, one constructor per [print] site. *)
Inductive event :=
| FileNotFound (file_path : string)
| NoPinkMorsel (file_path : string)
| ProcessingError (file_path : string) (e : exn)
| NoDataProcessed
| Saved (output_file : string)
| Preview (first_rows : DataFrame)
| SaveError (output_file : string) (e : exn).

Record World := {
  fs : gmap string node;
  stdout : list event
}.

#[global] Instance node_eq_dec : EqDecision node.
Proof. solve_decision. Defined.
#[global] Instance event_eq_dec : EqDecision event.
Proof. solve_decision. Defined.
#[global] Instance World_eq_dec : EqDecision World.
Proof. solve_decision. Defined.

(** Opening [path] for writing and storing [data]: a directory and a
    read-only file refuse; a writable file is overwritten; a fresh path
    is created, its directory being taken to exist. *)
Definition write_file (path data : string) (files : gmap string node) : result (gmap string node) :=
  match files !! path with
  | Some Dir => Raise OSError
  | Some (File false _) => Raise OSError
  | Some (File true _) | None => Ok (<[path := File true data]> files)
  end.

(** Computations over the world that may raise. A raised exception keeps
    the effects performed before it. *)
Definition M (A : Type) : Type := World -> result A * World.

Definition ret {A} (a : A) : M A := fun w => (Ok a, w).

Definition bind {A B} (m : M A) (k : A -> M B) : M B :=
  fun w => match m w with
           | (Ok a, w') => k a w'
           | (Raise e, w') => (Raise e, w')
           end.

Definition lift {A} (r : result A) : M A := fun w => (r, w).

(** [try: m except Exception as e: h e] *)
Definition try_except {A} (m : M A) (h : exn -> M A) : M A :=
  fun w => match m w with
           | (Ok a, w') => (Ok a, w')
           | (Raise e, w') => h e w'
           end.

Notation "x <- m ;; k" := (bind m (fun x => k))
  (at level 100, m at next level, right associativity).
Notation "m ;;; k" := (bind m (fun _ => k))
  (at level 100, right associativity).

Fixpoint for_each {A B} (l : list A) (acc : B) (body : B -> A -> M B) : M B :=
  match l with
  | [] => ret acc
  | x :: l' => acc' <- body acc x ;; for_each l' acc' body
  end.

Definition print (ev : event) : M unit :=
  fun w => (Ok tt, {| fs := fs w; stdout := (stdout w ++ [ev])%list |}).

(** [os.path.exists]: true of files and of directories. *)
Definition os_path_exists (path : string) : M bool :=
  fun w => (Ok (bool_decide (is_Some (fs w !! path))), w).

Section Program.
Context {L : Library}.

(** Opening [path] for reading and parsing its bytes. *)
Definition load (files : gmap string node) (path : string) : result DataFrame :=
  match files !! path with
  | Some (File _ data) => rbind (parse_csv data) (fun t => Ok (frame_of_table t))
  | Some Dir | None => Raise OSError
  end.

(** [pd.read_csv(path)] *)
Definition read_csv (path : string) : M DataFrame :=
  fun w => (load (fs w) path, w).

(** [df.to_csv(path, index=False)] *)
Definition to_csv (df : DataFrame) (path : string) : M unit :=
  fun w => match write_file path (csv_text df) (fs w) with
           | Ok files => (Ok tt, {| fs := files; stdout := stdout w |})
           | Raise e => (Raise e, w)
           end.

(** ** The program *)

Definition target : string := "pink morsel".

(** Lines 26-27: [df[df['product'].str.lower() == 'pink morsel'].copy()] *)
Definition filter_stage (df : DataFrame) : result DataFrame :=
  rbind (getitem df "product") (fun product =>
  rbind (str_lower product) (fun lowered =>
  Ok (getitem_mask df (eq_scalar lowered target)))).

(** Lines 35-45: the price and quantity columns are made numeric, the
    [Sales] column is their product, and the three output columns are
    selected and renamed. *)
Definition transform_stage (df_pink : DataFrame) : result DataFrame :=
  rbind (getitem df_pink "price") (fun price =>
  rbind (astype_float (replace_dollar price)) (fun price =>
  let df_pink := loc_setitem df_pink "price" price in
  rbind (getitem df_pink "quantity") (fun quantity =>
  rbind (to_numeric quantity) (fun quantity =>
  let df_pink := loc_setitem df_pink "quantity" quantity in
  rbind (getitem df_pink "price") (fun price =>
  rbind (getitem df_pink "quantity") (fun quantity =>
  rbind (mul_series price quantity) (fun sales =>
  let df_pink := loc_setitem df_pink "Sales" sales in
  rbind (getitem_list df_pink ["Sales"; "date"; "region"]) (fun df_output =>
  Ok (rename [("date", "Date"); ("region", "Region")] df_output))))))))).

(** Lines 17-50: one iteration of the loop over [input_files]. *)
Definition loop_body (all_data_frames : list DataFrame) (file_path : string) : M (list DataFrame) :=
  found <- os_path_exists file_path ;;
  if negb found then
    print (FileNotFound file_path) ;;; ret all_data_frames
  else
    try_except
      (df <- read_csv file_path ;;
       df_pink <- lift (filter_stage df) ;;
       if empty df_pink then
         print (NoPinkMorsel file_path) ;;; ret all_data_frames
       else
         df_output <- lift (transform_stage df_pink) ;;
         ret (all_data_frames ++ [df_output])%list)
      (fun e => print (ProcessingError file_path e) ;;; ret all_data_frames).

(** Lines 5-66. *)
Definition process_sales_data (input_files : list string) (output_file : string) : M unit :=
  all_data_frames <- for_each input_files [] loop_body ;;
  match all_data_frames with
  | [] => print NoDataProcessed
  | _ =>
      combined_df <- lift (concat all_data_frames) ;;
      try_except
        (to_csv combined_df output_file ;;;
         print (Saved output_file) ;;;
         print (Preview (head combined_df)))
        (fun e => print (SaveError output_file e))
  end.

(** [os.path.join(a, b)] on a POSIX system: an absolute [b] replaces
    [a]; otherwise the two are joined by one slash, which is left out
    when [a] is empty or ends with one. *)
Fixpoint ends_with_slash (s : string) : bool :=
  match s with
  | EmptyString => false
  | String c EmptyString => Ascii.eqb c "/"%char
  | String _ s' => ends_with_slash s'
  end.

Definition os_path_join (a b : string) : string :=
  match b with
  | String "/"%char _ => b
  | _ => if bool_decide (a = "") || ends_with_slash a then a +:+ b else a +:+ "/" +:+ b
  end.

(** Lines 84-99: the script run as a program. *)
Definition main : M unit :=
  let data_folder := "data" in
  let input_file_names :=
    ["daily_sales_data_0.csv"; "daily_sales_data_1.csv"; "daily_sales_data_2.csv"] in
  let input_file_paths := map (fun fname => os_path_join data_folder fname) input_file_names in
  let output_file_path := "formatted_pink_morsel_sales.csv" in
  process_sales_data input_file_paths output_file_path.

End Program.

(** ** An executable instance of [Library]

    Plain decimal text for the numbers, comma-separated text with
    optional quoting for the tables, shortest round-trip text for
    [repr]. *)

Module Reference.

Definition is_digit (c : ascii) : bool :=
  let n := N_of_ascii c in ((48 <=? n) && (n <=? 57))%N.

Definition digit_value (c : ascii) : Z := Z.of_N (N_of_ascii c) - 48.

Definition is_space (c : ascii) : bool :=
  let n := N_of_ascii c in ((n =? 32) || ((9 <=? n) && (n <=? 13)))%N.

Fixpoint chars (s : string) : list ascii :=
  match s with
  | EmptyString => []
  | String c s' => c :: chars s'
  end.

Fixpoint text (l : list ascii) : string :=
  match l with
  | [] => EmptyString
  | c :: l' => String c (text l')
  end.

Fixpoint span_digits (l : list ascii) : list ascii * list ascii :=
  match l with
  | c :: l' => if is_digit c then let '(d, r) := span_digits l' in (c :: d, r) else ([], l)
  | [] => ([], [])
  end.

Definition digits_value (l : list ascii) : Z :=
  fold_left (fun acc c => 10 * acc + digit_value c) l 0.

Fixpoint drop_spaces (l : list ascii) : list ascii :=
  match l with
  | c :: l' => if is_space c then drop_spaces l' else l
  | [] => []
  end.

Definition strip (l : list ascii) : list ascii :=
  rev (drop_spaces (rev (drop_spaces l))).

Definition split_sign (l : list ascii) : bool * list ascii :=
  match l with
  | "-"%char :: l' => (true, l')
  | "+"%char :: l' => (false, l')
  | _ => (false, l)
  end.

(** A decimal exponent part: [e], an optional sign, digits. *)
Definition exponent (l : list ascii) : option Z :=
  match l with
  | [] => Some 0
  | c :: l' =>
      if Ascii.eqb (lower_ascii c) "e"%char then
        let '(neg, l'') := split_sign l' in
        match span_digits l'' with
        | ((_ :: _) as d, []) => Some (if neg then - digits_value d else digits_value d)
        | _ => None
        end
      else None
  end.

(** An unsigned decimal literal as mantissa and power of ten. *)
Definition decimal (l : list ascii) : option (Z * Z) :=
  let '(ip, r) := span_digits l in
  let '(fp, r') := match r with
                  | "."%char :: r1 => span_digits r1
                  | _ => ([], r)
                  end in
  match (ip ++ fp)%list with
  | [] => None
  | ds => e ← exponent r'; Some (digits_value ds, e - Z.of_nat (length fp))
  end.

(** The float64 nearest to [m * 10 ^ e], ties to even. *)
Definition float_of_decimal (neg : bool) (m e : Z) : float :=
  match m with
  | Zpos p =>
      if 0 <=? e then binary_normalize 53 1024 (if neg then - (m * 10 ^ e) else m * 10 ^ e) 0 false
      else SFdiv 53 1024 (S754_finite neg p 0) (S754_finite false (Z.to_pos (10 ^ (- e))) 0)
  | _ => S754_zero neg
  end.

Definition float_of_chars (l : list ascii) : option float :=
  let '(neg, body) := split_sign (strip l) in
  let word := text (map lower_ascii body) in
  if bool_decide (word = "inf") || bool_decide (word = "infinity") then Some (S754_infinity neg)
  else if bool_decide (word = "nan") then Some S754_nan
  else '(m, e) ← decimal body; Some (float_of_decimal neg m e).

Definition float_of_str (s : string) : option float := float_of_chars (chars s).

Definition numeric_of_str (s : string) : option number :=
  let '(neg, body) := split_sign (strip (chars s)) in
  match span_digits body with
  | ((_ :: _) as d, []) => Some (NInt (if neg then - digits_value d else digits_value d))
  | _ => NFloat <$> float_of_str s
  end.

(** *** Shortest round-trip text of a float *)

(** [ge_pow10 num den p]: [10 ^ p <= num / den]. *)
Definition ge_pow10 (num den p : Z) : bool :=
  if 0 <=? p then den * 10 ^ p <=? num else den <=? num * 10 ^ (- p).

Fixpoint scan_pow10 (fuel : nat) (num den p : Z) : Z :=
  match fuel with
  | O => p
  | S fuel' => if ge_pow10 num den (p + 1) then scan_pow10 fuel' num den (p + 1) else p
  end.

(** The [n]-digit decimals next to [num / den], when one of them reads
    back as [x]: the digits and their power of ten. *)
Definition candidate (x : float) (num den p10 : Z) (n : nat) : option (Z * Z) :=
  let k := p10 - (Z.of_nat n - 1) in
  let '(a, b) := if 0 <=? k then (num, den * 10 ^ k) else (num * 10 ^ (- k), den) in
  let lo := a / b in
  let r := a mod b in
  let back d := bool_decide (float_of_decimal false d k = x) in
  match back lo, back (lo + 1) with
  | true, true => Some (if 2 * r <=? b then lo else lo + 1, k)
  | true, false => Some (lo, k)
  | false, true => Some (lo + 1, k)
  | false, false => None
  end.

Fixpoint shortest (x : float) (num den p10 : Z) (fuel n : nat) : Z * Z :=
  match fuel with
  | O => (0, 0)
  | S fuel' =>
      match candidate x num den p10 n with
      | Some dk => dk
      | None => shortest x num den p10 fuel' (S n)
      end
  end.

Fixpoint drop_zeros (fuel : nat) (d k : Z) : Z * Z :=
  match fuel with
  | O => (d, k)
  | S fuel' => if (d mod 10 =? 0) && negb (d =? 0) then drop_zeros fuel' (d / 10) (k + 1) else (d, k)
  end.

Definition zeros (n : Z) : string := repeat_str (Z.to_nat n) "0".

Definition two_digits (n : Z) : string :=
  if n <? 10 then "0" +:+ pretty n else pretty n.

(** The layout of [repr]: positional between 1e-4 and 1e16, scientific
    outside. [ds] are the significant digits and [decpt] the position of
    the point after them. *)
Definition layout (ds : string) (decpt : Z) : string :=
  let len := Z.of_nat (String.length ds) in
  if (-4 <? decpt) && (decpt <=? 16) then
    if decpt <=? 0 then "0." +:+ zeros (- decpt) +:+ ds
    else if len <=? decpt then ds +:+ zeros (decpt - len) +:+ ".0"
    else substring 0 (Z.to_nat decpt) ds +:+ "." +:+
         substring (Z.to_nat decpt) (Z.to_nat (len - decpt)) ds
  else
    let e := decpt - 1 in
    substring 0 1 ds +:+
    (if len =? 1 then "" else "." +:+ substring 1 (Z.to_nat (len - 1)) ds) +:+
    "e" +:+ (if e <? 0 then "-" else "+") +:+ two_digits (Z.abs e).

Definition float_repr (x : float) : string :=
  match x with
  | S754_nan => "nan"
  | S754_infinity s => if s then "-inf" else "inf"
  | S754_zero s => if s then "-0.0" else "0.0"
  | S754_finite s m e =>
      let '(num, den) := if 0 <=? e then (Zpos m * 2 ^ e, 1) else (Zpos m, 2 ^ (- e)) in
      let p10 := scan_pow10 4 num den ((Zdigits2 (Zpos m) + e - 1) * 30103 / 100000 - 1) in
      let '(d, k) := shortest (S754_finite false m e) num den p10 17 1 in
      let '(d, k) := drop_zeros 20 d k in
      let ds := pretty d in
      (if s then "-" else "") +:+ layout ds (Z.of_nat (String.length ds) + k)
  end.

(** *** Comma-separated text *)

Inductive pstate := FieldStart | Unquoted | Quoted | QuoteSeen.

Definition end_record (field : list ascii) (record : list string) (st : pstate)
    (records : list (list string)) : list (list string) :=
  match st, field, record with
  | FieldStart, [], [] => records
  | _, _, _ => rev (text (rev field) :: record) :: records
  end.

(** The records of a text: fields split at commas, records at line
    breaks, blank lines skipped, quoted fields with doubled quotes. The
    accumulators are kept in reverse. *)
Fixpoint tokenize (l : list ascii) (st : pstate) (field : list ascii)
    (record : list string) (records : list (list string)) : option (list (list string)) :=
  match l with
  | [] =>
      match st with
      | Quoted => None
      | _ => Some (rev (end_record field record st records))
      end
  | c :: l' =>
      match st with
      | Quoted =>
          if Ascii.eqb c dquote then tokenize l' QuoteSeen field record records
          else tokenize l' Quoted (c :: field) record records
      | _ =>
          if Ascii.eqb c dquote then
            match st with
            | FieldStart => tokenize l' Quoted field record records
            | QuoteSeen => tokenize l' Quoted (c :: field) record records
            | _ => tokenize l' Unquoted (c :: field) record records
            end
          else if Ascii.eqb c ","%char then
            tokenize l' FieldStart [] (text (rev field) :: record) records
          else if Ascii.eqb c newline || Ascii.eqb c creturn then
            tokenize l' FieldStart [] [] (end_record field record st records)
          else tokenize l' Unquoted (c :: field) record records
      end
  end.

Definition na_values : list string :=
  [""; "#N/A"; "#N/A N/A"; "#NA"; "-1.#IND"; "-1.#QNAN"; "-NaN"; "-nan"; "1.#IND";
   "1.#QNAN"; "<NA>"; "N/A"; "NA"; "NULL"; "NaN"; "None"; "n/a"; "nan"; "null"].

Definition is_na (s : string) : bool := bool_decide (s ∈ na_values).

Definition is_int_text (s : string) : bool :=
  match numeric_of_str s with
  | Some (NInt _) => true
  | _ => false
  end.

Definition is_num_text (s : string) : bool :=
  match numeric_of_str s with
  | Some _ => true
  | None => false
  end.

Definition bool_text (s : string) : option bool :=
  if bool_decide (s ∈ ["True"; "TRUE"; "true"]) then Some true
  else if bool_decide (s ∈ ["False"; "FALSE"; "false"]) then Some false
  else None.

(** The dtype the reader infers for the cells of one column. *)
Definition infer (cells : list string) : dtype :=
  let present := List.filter (fun s => negb (is_na s)) cells in
  let missing := existsb is_na cells in
  match cells, present with
  | [], _ => object
  | _, [] => float64
  | _, _ =>
      if forallb is_int_text present then (if missing then float64 else int64)
      else if forallb is_num_text present then float64
      else if forallb (fun s => bool_decide (is_Some (bool_text s))) present && negb missing
      then bool_
      else object
  end.

Definition convert (d : dtype) (s : string) : value :=
  if is_na s then NaN
  else match d, numeric_of_str s, bool_text s with
       | int64, Some (NInt z), _ => VInt z
       | float64, Some (NInt z), _ => VFloat (float_of_Z z)
       | float64, Some (NFloat f), _ => VFloat f
       | bool_, _, Some b => VBool b
       | _, _, _ => VStr s
       end.

Definition column_cells (j : nat) (records : list (list string)) : list string :=
  map (fun rec => nth j rec "") records.

Definition parse_csv (data : string) : result Table :=
  match tokenize (chars data) FieldStart [] [] [] with
  | None | Some [] => Raise ParserError
  | Some (header :: records) =>
      if forallb (fun rec => (length rec <=? length header)%nat) records then
        let cols := imap (fun j c => (c, infer (column_cells j records))) header in
        Ok {| t_columns := cols;
              t_rows := map (fun rec =>
                               list_to_map (imap (fun j cd => (cd.1, convert cd.2 (nth j rec ""))) cols))
                            records |}
      else Raise ParserError
  end.

Definition library : Library :=
  Build_Library parse_csv float_of_str numeric_of_str float_repr.

End Reference.

(** ** The stages, row by row

    The notions the properties are stated with: the product test of the
    Filter, the two numeric readings of the Transformer, and the result
    of the per-file pipeline as one value. *)

Section Stages.
Context {L : Library}.

(** The product cell, lower-cased, equals the target. *)
Definition is_pink (v : value) : bool := bool_decide (lower_value v = VStr target).

Definition pink_row (ir : Z * Row) : bool := is_pink (cell ir.2 "product").

(** The price text without its dollar signs, read as a float. *)
Definition price_value (r : Row) : result float :=
  to_float (replace_value (cell r "price")).

(** The quantity read as a number. *)
Definition quantity_value (r : Row) : result value :=
  numeric_value (cell r "quantity").


(** The Output Record of an input row with the given sales value. *)
Definition output_record (sales : value) (r : Row) : Row :=
  <["Sales" := sales]> (<["Date" := cell r "date"]> (<["Region" := cell r "region"]> ∅)).

(** What one input file comes to. *)
Inductive outcome :=
| Missing
| Failed (e : exn)
| NoMatch
| Frame (df_output : DataFrame).

#[global] Instance outcome_eq_dec : EqDecision outcome.
Proof. solve_decision. Defined.

Definition file_outcome (files : gmap string node) (path : string) : outcome :=
  match files !! path with
  | None => Missing
  | Some _ =>
      match load files path with
      | Raise e => Failed e
      | Ok df =>
          match filter_stage df with
          | Raise e => Failed e
          | Ok df_pink =>
              if empty df_pink then NoMatch
              else match transform_stage df_pink with
                   | Raise e => Failed e
                   | Ok df_output => Frame df_output
                   end
          end
      end
  end.

Definition frames_of (o : outcome) : list DataFrame :=
  match o with
  | Frame df_output => [df_output]
  | _ => []
  end.

Definition events_of (path : string) (o : outcome) : list event :=
  match o with
  | Missing => [FileNotFound path]
  | Failed e => [ProcessingError path e]
  | NoMatch => [NoPinkMorsel path]
  | Frame _ => []
  end.

(** The value of [all_data_frames] after the loop. *)
Definition all_frames (files : gmap string node) (input_files : list string) : list DataFrame :=
  flat_map (fun path => frames_of (file_outcome files path)) input_files.

(** What the loop prints. *)
Definition all_events (files : gmap string node) (input_files : list string) : list event :=
  flat_map (fun path => events_of path (file_outcome files path)) input_files.

(** The world with more lines on the console. *)
Definition log (w : World) (evs : list event) : World :=
  {| fs := fs w; stdout := stdout w ++ evs |}.

(** The world after the write at the end of a run. *)
Definition written (w : World) (output_file : string) (combined_df : DataFrame) : World :=
  match write_file output_file (csv_text combined_df) (fs w) with
  | Ok files => {| fs := files; stdout := stdout w ++ [Saved output_file; Preview (head combined_df)] |}
  | Raise e => log w [SaveError output_file e]
  end.

(** The value of [combined_df] at line 57, when the run gets there. *)
Definition combined_frame (w : World) (input_files : list string) : result DataFrame :=
  match for_each input_files [] loop_body w with
  | (Ok all_data_frames, _) => concat all_data_frames
  | (Raise e, _) => Raise e
  end.

(** A value [v] of a series of dtype [t] and what a column stores for
    it: [v] itself, or what a column of the dtype [od] holds for it. *)
Definition held_as (od : option dtype) (t : dtype) (v v' : value) : Prop :=
  v' = v \/ exists d, od = Some d /\ hold_value d t v = Some v'.

Definition held (od : option dtype) (v v' : value) : Prop :=
  exists t, held_as od t v v'.

(** How an output row relates to the filtered row it is computed from,
    in a frame whose price column has the dtype [dp] and whose [Sales]
    column, if it has one, the dtype [ds]: the price value is stored in
    the price column, the stored price is multiplied by the quantity
    value, and the product is stored in the [Sales] column. *)
Definition sales_rel (dp ds : option dtype) (ir o : Z * Row) : Prop :=
  o.1 = ir.1 /\
  exists pv qv p q exact s0 s,
    price_value ir.2 = Ok pv /\ quantity_value ir.2 = Ok qv /\
    held dp (VFloat pv) p /\ (q = qv \/ q = upcast_float qv) /\
    mul_value exact p q = Ok s0 /\ held ds s0 s /\
    o.2 = output_record s ir.2.

(** Two cells with one value, up to the conversion of an integer to the
    float that [pd.concat] stores in a float64 column. *)
Definition same_value (v v' : value) : Prop :=
  v' = v \/ v' = concat_value float64 v.

(** Two records with the same three fields, up to that conversion. *)
Definition same_record (o o' : Row) : Prop :=
  same_value (cell o "Sales") (cell o' "Sales") /\
  same_value (cell o "Date") (cell o' "Date") /\
  same_value (cell o "Region") (cell o' "Region").

(** The input rows of a file that reach the output, in file order: the
    rows the Filter keeps, when the file yields a frame. *)
Definition retained (files : gmap string node) (path : string) : list (Z * Row) :=
  match file_outcome files path, load files path with
  | Frame _, Ok df => List.filter pink_row (rows df)
  | _, _ => []
  end.

Definition retained_rows (files : gmap string node) (input_files : list string) : list (Z * Row) :=
  flat_map (retained files) input_files.

(** A per-file error: the file is missing, cannot be opened, cannot be
    parsed, a stage raises (a column is absent, the product column is not
    text), or a row the Filter keeps has a price or a quantity that is
    not a number. *)
Inductive per_file_error (files : gmap string node) (path : string) : Prop :=
| error_missing :
    files !! path = None -> per_file_error files path
| error_unreadable :
    files !! path = Some Dir -> per_file_error files path
| error_unparseable b data e :
    files !! path = Some (File b data) -> parse_csv data = Raise e ->
    per_file_error files path
| error_filter df e :
    load files path = Ok df -> filter_stage df = Raise e -> per_file_error files path
| error_transform df df_pink e :
    load files path = Ok df -> filter_stage df = Ok df_pink -> empty df_pink = false ->
    transform_stage df_pink = Raise e -> per_file_error files path
| error_price df ir e :
    load files path = Ok df -> ir ∈ rows df -> pink_row ir = true ->
    price_value ir.2 = Raise e -> per_file_error files path
| error_quantity df ir e :
    load files path = Ok df -> ir ∈ rows df -> pink_row ir = true ->
    quantity_value ir.2 = Raise e -> per_file_error files path.

(** The number of rows of a file the Filter keeps (zero when the file
    cannot be loaded). *)
Definition matching_rows (files : gmap string node) (path : string) : nat :=
  match load files path with
  | Ok df => length (List.filter pink_row (rows df))
  | Raise _ => 0%nat
  end.

(** The number of data rows of the output of a run. *)
Definition data_rows (w : World) (input_files : list string) : nat :=
  match combined_frame w input_files with
  | Ok combined_df => length (rows combined_df)
  | Raise _ => 0%nat
  end.

(** The sum of the filtered row counts of the files that parsed and had
    at least one match. *)
Definition parsed_match_count (files : gmap string node) (input_files : list string) : nat :=
  sum_list (map (fun path => match load files path with
                             | Ok _ => if (1 <=? matching_rows files path)%nat
                                       then matching_rows files path else 0%nat
                             | Raise _ => 0%nat
                             end) input_files).

(** The same sum, over the files whose iteration appends a frame. *)
Definition processed_match_count (files : gmap string node) (input_files : list string) : nat :=
  sum_list (map (fun path => match file_outcome files path with
                             | Frame _ => matching_rows files path
                             | _ => 0%nat
                             end) input_files).

End Stages.

(** A spelling of [t] in mixed case: letter by letter, the character of
    [t] or, for a small letter, its capital. *)
Inductive spelling : string -> string -> Prop :=
| spelling_nil : spelling "" ""
| spelling_cons a b s t :
    a = b \/ ((97 <= N_of_ascii b <= 122)%N /\ (N_of_ascii a + 32 = N_of_ascii b)%N) ->
    spelling s t -> spelling (String a s) (String b t).

(** ** Further notions *)

Definition is_ok {A} (r : result A) : bool :=
  match r with
  | Ok _ => true
  | Raise _ => false
  end.

(** Both numeric readings of a row succeed. *)
Definition convertible {L : Library} (ir : Z * Row) : bool :=
  is_ok (price_value ir.2) && is_ok (quantity_value ir.2).

(** The four columns the Transformer reads. *)
Definition has_transform_columns (cols : list (string * dtype)) : bool :=
  has_column "price" cols && has_column "quantity" cols &&
  has_column "date" cols && has_column "region" cols.

(** A file processed without any per-file error: it loads, its product
    column is a text column, it has the price, quantity, date and region
    columns, and the price and the quantity of every row the Filter
    keeps convert to numbers. *)
Definition processed {L : Library} (files : gmap string node) (path : string) : bool :=
  match load files path with
  | Ok df =>
      bool_decide (lookup_column "product" (columns df) = Some object) &&
      has_transform_columns (columns df) &&
      forallb convertible (List.filter pink_row (rows df))
  | Raise _ => false
  end.

(** The sum of the filtered row counts of the files processed without
    any per-file error. *)
Definition clean_match_count {L : Library} (files : gmap string node)
    (input_files : list string) : nat :=
  sum_list (map (fun path => if processed files path then matching_rows files path else 0%nat)
                input_files).

(** The columns whose dtype the Transformer depends on. *)
Definition transform_names : list string := ["price"; "quantity"; "Sales"; "date"; "region"].

(** Two rows with one label and the same price, quantity, date and
    region cells. *)
Definition same_cells (ir ir' : Z * Row) : Prop :=
  ir.1 = ir'.1 /\ cell ir.2 "price" = cell ir'.2 "price" /\
  cell ir.2 "quantity" = cell ir'.2 "quantity" /\
  cell ir.2 "date" = cell ir'.2 "date" /\ cell ir.2 "region" = cell ir'.2 "region".

Definition is_number (v : value) : bool :=
  match v with
  | VStr _ => false
  | _ => true
  end.

(** A retained row and its record in the frame of its file. *)
Definition record_rel {L : Library} (ir : Z * Row) (o : Row) : Prop :=
  exists dp ds i, sales_rel dp ds ir (i, o).

(** Two rows with one label that differ at most by the dollar signs of
    their prices. *)
Definition same_but_dollars (ir ir' : Z * Row) : Prop :=
  ir.1 = ir'.1 /\
  replace_value (cell ir.2 "price") = replace_value (cell ir'.2 "price") /\
  cell ir.2 "quantity" = cell ir'.2 "quantity" /\
  cell ir.2 "date" = cell ir'.2 "date" /\ cell ir.2 "region" = cell ir'.2 "region".

(** Two frames with the same dtypes in the columns [ds] and, row by row,
    the same labels and the same cells in the columns [cs]. *)
Definition agree (ds cs : list string) (df df' : DataFrame) : Prop :=
  Forall (fun c => lookup_column c (columns df) = lookup_column c (columns df')) ds /\
  Forall2 (fun ir ir' => ir.1 = ir'.1 /\ Forall (fun c => cell ir.2 c = cell ir'.2 c) cs)
          (rows df) (rows df').

(** The file a printed line is about. *)
Definition event_path (ev : event) : option string :=
  match ev with
  | FileNotFound p | NoPinkMorsel p | ProcessingError p _ => Some p
  | _ => None
  end.

Fixpoint count_char (c : ascii) (s : string) : nat :=
  match s with
  | EmptyString => O
  | String d s' => ((if Ascii.eqb c d then 1 else 0) + count_char c s')%nat
  end.

(** The line breaks inside the three fields of a record. *)
Definition breaks_in {L : Library} (o : Row) : nat :=
  (count_char newline (render_value (cell o "Sales")) +
   count_char newline (render_value (cell o "Date")) +
   count_char newline (render_value (cell o "Region")))%nat.

(** ** Sample worlds

    Small files under the instance [Reference.library]: [a.csv] has one
    matching row and one row of another product, [b.csv] one matching
    row whose quantity is not a number, [c.csv] no matching row, [d.csv]
    two matching rows, [e.csv] one matching row and a row of another
    product whose quantity is not a number; [data] is a directory and
    [locked.csv] a read-only file. *)

Module Sample.

Definition nl : string := String newline "".

Definition head_row : string := "product,price,quantity,date,region" +:+ nl.

Definition file_a : string :=
  head_row +:+ "pink morsel,$1.50,4,2024-01-01,north" +:+ nl
           +:+ "red morsel,$2.00,3,2024-01-01,north" +:+ nl.

Definition file_b : string :=
  head_row +:+ "pink morsel,$2.00,abc,2024-01-02,south" +:+ nl.

Definition file_c : string :=
  head_row +:+ "gold morsel,$2.00,3,2024-01-02,south" +:+ nl.

Definition file_e : string :=
  head_row +:+ "pink morsel,$1.00,2,2024-01-03,east" +:+ nl
           +:+ "red morsel,$2.00,abc,2024-01-03,east" +:+ nl.

Definition file_d : string :=
  head_row +:+ "PINK MORSEL,$3.00,546,2018-02-06,south" +:+ nl
           +:+ "Pink Morsel,$1.10,3,2018-02-07,west" +:+ nl.

Definition world : World :=
  {| fs := {[ "a.csv" := File true file_a; "b.csv" := File true file_b;
              "c.csv" := File true file_c; "d.csv" := File true file_d;
              "e.csv" := File true file_e; "locked.csv" := File false "";
              "data" := Dir ]};
     stdout := [] |}.

Definition no_frame : DataFrame := {| columns := []; rows := [] |}.

Definition frame_of (path : string) : DataFrame :=
  match @load Reference.library (fs world) path with
  | Ok df => df
  | Raise _ => no_frame
  end.

Definition row_of (path : string) (i : nat) : Z * Row :=
  default (0, ∅) (rows (frame_of path) !! i).

(** The frames and the world after the loop over [input_files]. *)
Definition frames_after (input_files : list string) : list DataFrame :=
  match (@for_each _ _ input_files [] (@loop_body Reference.library) world).1 with
  | Ok frames => frames
  | Raise _ => []
  end.

Definition world_after (input_files : list string) : World :=
  (@for_each _ _ input_files [] (@loop_body Reference.library) world).2.

Definition output_of (path : string) : DataFrame :=
  default no_frame (frames_after [path] !! 0%nat).

Definition combined_of (input_files : list string) : DataFrame :=
  match @combined_frame Reference.library world input_files with
  | Ok combined_df => combined_df
  | Raise _ => no_frame
  end.

(** The world after a run. *)
Definition run (input_files : list string) (output_file : string) (w : World) : World :=
  (@process_sales_data Reference.library input_files output_file w).2.

End Sample.

(** More files: [f.csv] has no product column, [g.csv] a product column
    of numbers, [h.csv] a matching row without a price and one without a
    quantity, [i.csv] no date column, [j.csv] a region with a line break
    inside quotes, [k.csv] a date with leading zeros and a region that
    reads as a missing value, [m.csv] and [n.csv] prices written as
    integers, [p.csv] a region that is a number with decimals and
    [q.csv] one that is an integer. *)

Module Sample2.

Definition file_f : string :=
  "item,price,quantity,date,region" +:+ Sample.nl +:+
  "pink morsel,$1.50,4,2024-01-01,north" +:+ Sample.nl.

Definition file_g : string :=
  Sample.head_row +:+ "17,$1.50,4,2024-01-01,north" +:+ Sample.nl.

Definition file_h : string :=
  Sample.head_row +:+ "pink morsel,,4,2024-01-01,north" +:+ Sample.nl
                  +:+ "pink morsel,$2.00,,2024-01-02,south" +:+ Sample.nl
                  +:+ "pink morsel,$3.00,2,2024-01-03,east" +:+ Sample.nl.

Definition file_i : string :=
  "product,price,quantity,region" +:+ Sample.nl +:+
  "pink morsel,$1.50,4,north" +:+ Sample.nl.

Definition file_j : string :=
  Sample.head_row +:+ "pink morsel,$1.50,4,2024-01-01," +:+ String dquote "north"
                  +:+ Sample.nl +:+ "east" +:+ String dquote "" +:+ Sample.nl.

Definition file_k : string :=
  Sample.head_row +:+ "pink morsel,$1.50,4,007,NA" +:+ Sample.nl.

Definition file_m : string :=
  Sample.head_row +:+ "pink morsel,2,4,2024-01-01,north" +:+ Sample.nl.

Definition file_n : string :=
  Sample.head_row +:+ "pink morsel,4611686018427387904,4,2024-01-01,north" +:+ Sample.nl.

Definition file_p : string :=
  Sample.head_row +:+ "pink morsel,$1.50,4,2024-01-01,7.5" +:+ Sample.nl.

Definition file_q : string :=
  Sample.head_row +:+ "pink morsel,$1.50,4,2024-01-02,7" +:+ Sample.nl.

Definition world : World :=
  {| fs := {[ "f.csv" := File true file_f; "g.csv" := File true file_g;
              "h.csv" := File true file_h; "i.csv" := File true file_i;
              "j.csv" := File true file_j; "k.csv" := File true file_k;
              "m.csv" := File true file_m; "n.csv" := File true file_n;
              "p.csv" := File true file_p; "q.csv" := File true file_q;
              "a.csv" := File true Sample.file_a ]};
     stdout := [] |}.

Definition row_of (path : string) (i : nat) : Z * Row :=
  match @load Reference.library (fs world) path with
  | Ok df => default (0, ∅) (rows df !! i)
  | Raise _ => (0, ∅)
  end.

(** The frame the iteration of [path] appends. *)
Definition frame_after (path : string) : DataFrame :=
  match (@loop_body Reference.library [] path world).1 with
  | Ok [df_output] => df_output
  | _ => Sample.no_frame
  end.


Definition frame_of (path : string) : DataFrame :=
  match @load Reference.library (fs world) path with
  | Ok df => df
  | Raise _ => Sample.no_frame
  end.

Definition pink_of (path : string) : DataFrame :=
  match filter_stage (frame_of path) with
  | Ok df_pink => df_pink
  | Raise _ => Sample.no_frame
  end.

Definition output_of (df_pink : DataFrame) : DataFrame :=
  match @transform_stage Reference.library df_pink with
  | Ok df_output => df_output
  | Raise _ => Sample.no_frame
  end.

(** The frame [df] with a [Sales] column of its own. *)
Definition with_sales (df : DataFrame) : DataFrame :=
  {| columns := columns df ++ [("Sales", object)];
     rows := map (fun ir => (ir.1, <["Sales" := VStr "n/a"]> ir.2)) (rows df) |}.

(** A frame with the cells of [df] in the four columns the Transformer
    reads, without its product column, with one column more and with
    other cells in its [Sales] column. *)
Definition decorated (df : DataFrame) : DataFrame :=
  {| columns := List.filter (fun cd => negb (String.eqb cd.1 "product")) (columns df)
                ++ [("note", object); ("Sales", object)];
     rows := map (fun ir => (ir.1, <["Sales" := VStr "old"]>
                                     (<["note" := VStr "x"]> (delete "product" ir.2))))
                 (rows df) |}.

(** The frame [df] with every price written with a dollar sign more. *)
Definition dollars (df : DataFrame) : DataFrame :=
  {| columns := columns df;
     rows := map (fun ir => (ir.1, match cell ir.2 "price" with
                                   | VStr t => <["price" := VStr ("$" +:+ t +:+ "$")]> ir.2
                                   | _ => ir.2
                                   end)) (rows df) |}.

Definition combined_of (input_files : list string) : DataFrame :=
  match @combined_frame Reference.library world input_files with
  | Ok combined_df => combined_df
  | Raise _ => Sample.no_frame
  end.

End Sample2.

(** ** Lemmas on the list and result combinators *)

Lemma mask_rows_map {A} (f : A -> bool) (l : list A) :
  mask_rows l (map f l) = List.filter f l.
Proof.
  induction l as [|x l IH]; simpl; [done|].
  rewrite IH. by destruct (f x).
Qed.

Lemma rmapM_Forall2 {A B} (f : A -> result B) (l : list A) (l' : list B) :
  rmapM f l = Ok l' -> Forall2 (fun x y => f x = Ok y) l l'.
Proof.
  revert l'. induction l as [|x l IH]; simpl; intros l' H.
  - inversion H. constructor.
  - destruct (f x) as [y|e] eqn:Hx; simpl in H; [|discriminate].
    destruct (rmapM f l) as [ys|e] eqn:Hl; simpl in H; [|discriminate].
    inversion H; subst. constructor; [done|]. by apply IH.
Qed.

Lemma rmapM_map {A B C} (f : B -> result C) (g : A -> B) (l : list A) :
  rmapM f (map g l) = rmapM (fun x => f (g x)) l.
Proof.
  induction l as [|x l IH]; simpl; [done|]. by rewrite IH.
Qed.

Lemma assign_Forall2 (c : string) (R : Z * Row -> Z * value -> Prop) rs vals :
  Forall2 R rs vals ->
  Forall2 (fun ir ir' => exists iv, R ir iv /\ ir' = (ir.1, <[c := iv.2]> ir.2))
          rs (assign c rs vals).
Proof.
  induction 1 as [|ir iv rs vals HR _ IH]; simpl; constructor; eauto.
Qed.

Lemma mul_data_Forall2 {A} (exact : bool) (f g : A -> Z * value) (l : list A) d :
  mul_data exact (map f l) (map g l) = Ok d ->
  Forall2 (fun x iv => iv.1 = (f x).1 /\ mul_value exact (f x).2 (g x).2 = Ok iv.2) l d.
Proof.
  revert d. induction l as [|x l IH]; simpl; intros d H.
  - inversion H. constructor.
  - destruct (mul_value exact (f x).2 (g x).2) as [v|e] eqn:Hv; simpl in H; [|discriminate].
    destruct (mul_data exact (map f l) (map g l)) as [d'|e] eqn:Hd; simpl in H; [|discriminate].
    inversion H; subst. constructor; [done|]. by apply IH.
Qed.

Lemma Forall2_compose {A B C} (R : A -> B -> Prop) (S : B -> C -> Prop) l1 l2 l3 :
  Forall2 R l1 l2 -> Forall2 S l2 l3 ->
  Forall2 (fun x z => exists y, R x y /\ S y z) l1 l3.
Proof.
  intros H. revert l3. induction H; intros l3 H'; inversion H'; subst; constructor; eauto.
Qed.

Lemma Forall2_map_right {A B C} (R : A -> C -> Prop) (f : B -> C) l l' :
  Forall2 (fun x y => R x (f y)) l l' -> Forall2 R l (map f l').
Proof. induction 1; simpl; constructor; auto. Qed.

Lemma Forall2_map_fst {A B C} (R : A * B -> A * C -> Prop) l l' :
  Forall2 R l l' -> (forall x y, R x y -> y.1 = x.1) -> map fst l' = map fst l.
Proof. intros H HR. induction H; simpl; [done|]. f_equal; auto. Qed.

Lemma Forall2_lookup_right {A B} (R : A -> B -> Prop) l l' y :
  Forall2 R l l' -> y ∈ l' -> exists x, x ∈ l /\ R x y.
Proof.
  induction 1 as [|a b l l' HR _ IH]; intros Hy.
  - by apply elem_of_nil in Hy.
  - apply elem_of_cons in Hy as [->|Hy].
    + exists a. split; [apply list_elem_of_here|done].
    + destruct (IH Hy) as (x & Hx & Hxy). exists x. split; [by apply list_elem_of_further|done].
Qed.

Lemma Forall2_Forall_right {A B} (R : A -> B -> Prop) (P : A -> Prop) (Q : B -> Prop) l l' :
  (forall x y, P x -> R x y -> Q y) -> Forall P l -> Forall2 R l l' -> Forall Q l'.
Proof.
  intros HPQ HP HR. induction HR as [|x y l l' Hxy _ IH]; constructor.
  - inversion HP; subst. eauto.
  - apply IH. by inversion HP.
Qed.

Lemma Forall2_Forall_left {A B} (R : A -> B -> Prop) (P : A -> Prop) l l' :
  (forall x y, R x y -> P x) -> Forall2 R l l' -> Forall P l.
Proof. intros HP. induction 1; constructor; eauto. Qed.

Lemma cell_insert (r : Row) (c c' : string) (v : value) :
  cell (<[c := v]> r) c' = if decide (c = c') then v else cell r c'.
Proof.
  unfold cell. rewrite lookup_insert. by destruct (decide (c = c')).
Qed.

(** ** The assignment in place *)

Lemma hold_value_same d t v v' :
  d = object \/ t = d -> hold_value d t v = Some v' -> v' = v.
Proof.
  intros [->| ->]; [|destruct d]; simpl; intros H; by inversion H.
Qed.

Lemma hold_value_cases d t v v' :
  hold_value d t v = Some v' ->
  v' = v \/
  (exists f z, d = int64 /\ v = VFloat f /\ int64_of_float f = Some z /\ v' = VInt z) \/
  (exists z, d = float64 /\ v = VInt z /\ v' = VFloat (float_of_Z z)).
Proof.
  destruct d, t, v as [s|z|f|b]; simpl; intros H; inversion H; subst; auto.
  - destruct (int64_of_float f) as [z|] eqn:Hz; simpl in *; [|discriminate].
    inversion H; subst. right; left. eauto 6.
  - right; right. eauto.
Qed.

Lemma held_as_same od t v v' :
  (forall d, od = Some d -> d = object \/ t = d) -> held_as od t v v' -> v' = v.
Proof.
  intros Hd [->|(d & Hod & Hh)]; [done|]. eapply hold_value_same; [|exact Hh]. auto.
Qed.



Lemma held_as_number od t v v' : held_as od t v v' -> is_number v = true -> is_number v' = true.
Proof.
  intros [->|(d & _ & Hh)]; [done|].
  apply hold_value_cases in Hh as [->|[(f' & z & _ & _ & _ & ->)|(z & _ & _ & ->)]]; done.
Qed.

Lemma mul_value_number exact p q :
  is_number p = true -> is_number q = true -> exists s, mul_value exact p q = Ok s.
Proof. destruct p, q; simpl; try discriminate; eauto. Qed.

Lemma lookup_column_set_dtype c c' d cols :
  lookup_column c (set_dtype c' d cols) =
  if String.eqb c c' then Some d else lookup_column c cols.
Proof.
  induction cols as [|[c0 d0] cols IH]; simpl.
  - by destruct (String.eqb c c').
  - destruct (String.eqb_spec c' c0) as [->|Hne]; simpl.
    + by destruct (String.eqb c c0).
    + destruct (String.eqb_spec c c0) as [->|Hne'].
      * destruct (String.eqb_spec c0 c'); [congruence|done].
      * exact IH.
Qed.

Lemma stored_data df c s :
  Forall2 (fun iv iv' => iv'.1 = iv.1 /\
                         held_as (lookup_column c (columns df)) (s_dtype s) iv.2 iv'.2)
          (s_data s) (s_data (stored df c s)).
Proof.
  assert (Forall2 (fun iv iv' : Z * value =>
                     iv'.1 = iv.1 /\
                     held_as (lookup_column c (columns df)) (s_dtype s) iv.2 iv'.2)
                  (s_data s) (s_data s)) as Hrefl.
  { apply Forall_Forall2_diag, Forall_forall. intros iv _. split; [done|by left]. }
  unfold stored. destruct (lookup_column c (columns df)) as [d|] eqn:Hd; [|exact Hrefl].
  destruct (hold d s) as [data|] eqn:Hh; [|exact Hrefl]. simpl.
  unfold hold in Hh. apply mapM_Some_1 in Hh.
  eapply Forall2_impl; [exact Hh|]. simpl. intros iv iv' H.
  destruct (hold_value d (s_dtype s) iv.2) as [v'|] eqn:Hv; simpl in H; [|discriminate].
  inversion H; subst; simpl. split; [done|]. right. eauto.
Qed.

Lemma loc_setitem_rows (R : Z * Row -> Z * value -> Prop) df c s :
  Forall2 R (rows df) (s_data s) ->
  Forall2 (fun ir ir' =>
             exists iv v', R ir iv /\
                           held_as (lookup_column c (columns df)) (s_dtype s) iv.2 v' /\
                           ir' = (ir.1, <[c := v']> ir.2))
          (rows df) (rows (loc_setitem df c s)).
Proof.
  intros HR. cbn [loc_setitem rows].
  pose proof (Forall2_compose _ _ _ _ _ HR (stored_data df c s)) as H.
  apply (assign_Forall2 c) in H.
  eapply Forall2_impl; [exact H|]. simpl.
  intros ir ir' (iv' & (iv & HRiv & _ & Hheld) & ->). eauto.
Qed.

Lemma loc_setitem_lookup df c c' s :
  c <> c' -> lookup_column c (columns (loc_setitem df c' s)) = lookup_column c (columns df).
Proof.
  intros Hne. cbn [loc_setitem columns]. rewrite lookup_column_set_dtype.
  by destruct (String.eqb_spec c c').
Qed.

(** ** The Filter and the Transformer, row by row *)

Section StageLemmas.
Context {L : Library}.

Lemma filter_stage_rows df df_pink :
  filter_stage df = Ok df_pink ->
  columns df_pink = columns df /\ rows df_pink = List.filter pink_row (rows df).
Proof.
  unfold filter_stage, getitem, str_lower.
  destruct (lookup_column "product" (columns df)) as [d|]; simpl; [|discriminate].
  destruct d; simpl; try discriminate.
  intros H; inversion H; subst; clear H. split; [done|].
  unfold getitem_mask, eq_scalar; simpl.
  rewrite !List.map_map; simpl.
  apply mask_rows_map.
Qed.

Lemma getitem_data df c s :
  getitem df c = Ok s -> s_data s = map (fun ir => (ir.1, cell ir.2 c)) (rows df).
Proof.
  unfold getitem. destruct (lookup_column c (columns df)); [|discriminate].
  intros H; by inversion H.
Qed.

Lemma getitem_dtype df c s :
  getitem df c = Ok s -> lookup_column c (columns df) = Some (s_dtype s).
Proof.
  unfold getitem. destruct (lookup_column c (columns df)); [|discriminate].
  intros H; by inversion H.
Qed.

Lemma astype_float_spec df s s' :
  getitem df "price" = Ok s -> astype_float (replace_dollar s) = Ok s' ->
  Forall2 (fun ir iv => iv.1 = ir.1 /\ exists f, price_value ir.2 = Ok f /\ iv.2 = VFloat f)
          (rows df) (s_data s').
Proof.
  intros Hs%getitem_data. unfold astype_float, replace_dollar; simpl.
  rewrite Hs, !rmapM_map; simpl.
  match goal with |- context [rmapM ?f (rows df)] => destruct (rmapM f (rows df)) as [P|] eqn:HP end;
    simpl; [|discriminate].
  intros H; inversion H; subst; clear H; simpl.
  apply rmapM_Forall2 in HP.
  eapply Forall2_impl; [exact HP|]. simpl. intros ir iv Hiv.
  unfold price_value. destruct (to_float _) as [f|]; simpl in Hiv; [|discriminate].
  inversion Hiv; subst; simpl. eauto.
Qed.

Lemma to_numeric_spec df s s' :
  getitem df "quantity" = Ok s -> to_numeric s = Ok s' ->
  (s_dtype s = object \/ s_dtype s' = s_dtype s) /\
  Forall2 (fun ir iv => iv.1 = ir.1 /\
             exists v, quantity_value ir.2 = Ok v /\ (iv.2 = v \/ iv.2 = upcast_float v))
          (rows df) (s_data s').
Proof.
  intros Hs%getitem_data. unfold to_numeric. rewrite Hs, !rmapM_map; simpl.
  match goal with |- context [rmapM ?f (rows df)] => destruct (rmapM f (rows df)) as [Q|] eqn:HQ end;
    simpl; [|discriminate].
  apply rmapM_Forall2 in HQ.
  assert (Forall2 (fun ir iv => iv.1 = ir.1 /\ quantity_value ir.2 = Ok iv.2) (rows df) Q) as HQ'.
  { eapply Forall2_impl; [exact HQ|]. simpl. intros ir iv Hiv.
    unfold quantity_value. destruct (numeric_value _) as [v|]; simpl in Hiv; [|discriminate].
    by inversion Hiv. }
  clear HQ.
  assert (Forall2 (fun (ir : Z * Row) (iv : Z * value) =>
                     iv.1 = ir.1 /\
                     exists v, quantity_value ir.2 = Ok v /\ (iv.2 = v \/ iv.2 = upcast_float v))
                  (rows df) Q) as Hsame.
  { eapply Forall2_impl; [exact HQ'|]. simpl. intros ir iv [H1 H2]. eauto. }
  destruct (s_dtype s) eqn:Ht.
  - destruct (existsb _ Q); intros H; inversion H; subst; clear H; simpl; (split; [by left|]);
      [|exact Hsame].
    clear Hs Hsame. induction HQ' as [|ir iv rs Q' [H1 H2] _ IH]; simpl; [constructor|].
    constructor; [|exact IH]. simpl. split; [done|]. exists iv.2. auto.
  - intros H; inversion H; subst; clear H; simpl. split; [by right|exact Hsame].
  - intros H; inversion H; subst; clear H; simpl. split; [by right|exact Hsame].
  - intros H; inversion H; subst; clear H; simpl. split; [by right|exact Hsame].
Qed.

Lemma mul_series_spec df a b sa sb s :
  getitem df a = Ok sa -> getitem df b = Ok sb -> mul_series sa sb = Ok s ->
  exists exact,
    Forall2 (fun ir iv => iv.1 = ir.1 /\ mul_value exact (cell ir.2 a) (cell ir.2 b) = Ok iv.2)
            (rows df) (s_data s).
Proof.
  intros Ha%getitem_data Hb%getitem_data. unfold mul_series. rewrite Ha, Hb.
  destruct (mul_data _ _ _) as [d|] eqn:Hd; simpl; [|discriminate].
  intros H; inversion H; subst; clear H; simpl.
  eexists. by apply mul_data_Forall2 in Hd.
Qed.

Lemma getitem_list_rows df cs df' :
  getitem_list df cs = Ok df' ->
  map fst (columns df') = cs /\
  rows df' = map (fun ir => (ir.1, project_row cs ir.2)) (rows df).
Proof.
  unfold getitem_list.
  destruct (rmapM _ cs) as [cols|] eqn:Hc; simpl; [|discriminate].
  intros H; inversion H; subst; clear H; simpl. split; [|done].
  apply rmapM_Forall2 in Hc.
  induction Hc as [|c cd cs cols Hcd _ IH]; simpl; [done|].
  destruct (lookup_column c (columns df)); [|discriminate].
  inversion Hcd; subst; simpl. by f_equal.
Qed.

Lemma quantity_value_number r v : quantity_value r = Ok v -> is_number v = true.
Proof.
  unfold quantity_value, numeric_value.
  destruct (cell r "quantity") as [s| | |]; simpl.
  - destruct (numeric_of_str s) as [[z|f]|]; intros H; by inversion H.
  - intros H; by inversion H.
  - intros H; by inversion H.
  - intros H; by inversion H.
Qed.



Lemma record_cells (s : value) (r : Row) :
  rename_row [("date", "Date"); ("region", "Region")] ["Sales"; "date"; "region"]
             (project_row ["Sales"; "date"; "region"] (<["Sales" := s]> r)) =
  output_record s r.
Proof.
  unfold rename_row, project_row, output_record; simpl.
  unfold cell at 1 3 5. rewrite !lookup_insert; simpl.
  by rewrite !cell_insert.
Qed.

Lemma transform_stage_rows df out :
  transform_stage df = Ok out ->
  Forall2 (sales_rel (lookup_column "price" (columns df)) (lookup_column "Sales" (columns df)))
          (rows df) (rows out).
Proof.
  unfold transform_stage.
  destruct (getitem df "price") as [s1|] eqn:E1; cbn [rbind]; [|discriminate].
  destruct (astype_float (replace_dollar s1)) as [price|] eqn:E2; cbn [rbind]; [|discriminate].
  pose proof (loc_setitem_rows _ _ "price" _ (astype_float_spec _ _ _ E1 E2)) as H1.
  pose proof (loc_setitem_lookup df "Sales" "price" price ltac:(done)) as Ls1.
  set (df1 := loc_setitem df "price" price) in *.
  destruct (getitem df1 "quantity") as [s2|] eqn:E3; cbn [rbind]; [|discriminate].
  destruct (to_numeric s2) as [quantity|] eqn:E4; cbn [rbind]; [|discriminate].
  destruct (to_numeric_spec _ _ _ E3 E4) as [Hd2 Hq].
  pose proof (loc_setitem_rows _ _ "quantity" _ Hq) as H2.
  pose proof (getitem_dtype _ _ _ E3) as Hl2.
  pose proof (loc_setitem_lookup df1 "Sales" "quantity" quantity ltac:(done)) as Ls2.
  set (df2 := loc_setitem df1 "quantity" quantity) in *.
  destruct (getitem df2 "price") as [s3|] eqn:E5; cbn [rbind]; [|discriminate].
  destruct (getitem df2 "quantity") as [s4|] eqn:E6; cbn [rbind]; [|discriminate].
  destruct (mul_series s3 s4) as [sales|] eqn:E7; cbn [rbind]; [|discriminate].
  destruct (mul_series_spec _ _ _ _ _ _ E5 E6 E7) as [exact Hm].
  pose proof (loc_setitem_rows _ _ "Sales" _ Hm) as H3.
  set (df3 := loc_setitem df2 "Sales" sales) in *.
  destruct (getitem_list df3 _) as [df4|] eqn:E8; cbn [rbind]; [|discriminate].
  apply getitem_list_rows in E8 as [Hcols Hrows].
  intros H; inversion H; subst out; clear H.
  unfold rename; cbn [rows]. rewrite Hcols, Hrows.
  do 2 apply Forall2_map_right.
  pose proof (Forall2_compose _ _ _ _ _ (Forall2_compose _ _ _ _ _ H1 H2) H3) as H.
  rewrite Ls2, Ls1, Hl2 in H.
  eapply Forall2_impl; [exact H|].
  assert (forall d, Some (s_dtype s2) = Some d -> d = object \/ s_dtype quantity = d) as Hsame.
  { intros d Hd. inversion Hd; subst d. exact Hd2. }
  clear -Hsame.
  intros [i r] [i3 r3] ([i2 r2] & ([i1 r1] & H1 & H2) & H3); simpl in *.
  destruct H1 as ([j1 v1] & p & (Hj1 & f & Hf & Hv1) & Hp & E1); simpl in *.
  destruct H2 as ([j2 v2] & q & (Hj2 & v & Hv & Hv2) & Hq & E2); simpl in *.
  destruct H3 as ([j3 v3] & s & (Hj3 & Hmul) & Hs & E3); simpl in *.
  inversion E1; inversion E2; inversion E3; subst; clear E1 E2 E3.
  assert (quantity_value r = Ok v) as Hqv.
  { revert Hv. unfold quantity_value. by rewrite cell_insert. }
  apply (held_as_same _ _ _ _ Hsame) in Hq. subst q.
  rewrite !cell_insert in Hmul; simpl in Hmul.
  split; [done|]. exists f, v, p, v2, exact, v3, s.
  split; [done|]. split; [done|]. split; [by eexists|]. split; [done|].
  split; [done|]. split; [by eexists|].
  rewrite <- record_cells. unfold rename_row, project_row; simpl.
  by rewrite !cell_insert.
Qed.


Lemma sales_rel_record dp ds ir o :
  sales_rel dp ds ir o -> o.1 = ir.1 /\ exists s, o.2 = output_record s ir.2.
Proof.
  intros (Hi & pv & qv & p & q & exact & s0 & s & _ & _ & _ & _ & _ & _ & Ho). eauto.
Qed.

End StageLemmas.

(** ** The loop and the run *)

Section RunLemmas.
Context {L : Library}.

Lemma log_nil w : log w [] = w.
Proof. destruct w; unfold log; simpl. by rewrite app_nil_r. Qed.

Lemma log_app w evs evs' : log (log w evs) evs' = log w (evs ++ evs').
Proof. unfold log; simpl. by rewrite app_assoc. Qed.

(** One iteration appends the file's frame, if it yields one, and prints
    one line otherwise; it never raises and never touches the files. *)
Lemma loop_body_spec acc path w :
  loop_body acc path w =
  (Ok (acc ++ frames_of (file_outcome (fs w) path)),
   log w (events_of path (file_outcome (fs w) path))).
Proof.
  unfold loop_body, file_outcome, bind, os_path_exists, try_except, read_csv, lift, print, ret.
  destruct (fs w !! path) as [n|] eqn:Hp; simpl.
  2:{ by rewrite app_nil_r. }
  destruct (load (fs w) path) as [df|e]; simpl; [|by rewrite app_nil_r].
  destruct (filter_stage df) as [df_pink|e]; simpl; [|by rewrite app_nil_r].
  destruct (empty df_pink); simpl; [by rewrite app_nil_r|].
  destruct (transform_stage df_pink) as [df_output|e]; simpl; [|by rewrite app_nil_r].
  by rewrite log_nil.
Qed.

Lemma for_each_spec input_files acc w :
  for_each input_files acc loop_body w =
  (Ok (acc ++ all_frames (fs w) input_files), log w (all_events (fs w) input_files)).
Proof.
  revert acc w. induction input_files as [|path l IH]; intros acc w; simpl.
  - unfold ret. by rewrite app_nil_r, log_nil.
  - unfold bind. rewrite loop_body_spec, IH. simpl.
    by rewrite log_app, <- app_assoc.
Qed.

Lemma concat_rows dfs combined :
  concat dfs = Ok combined ->
  rows combined =
    range_index (map (concat_row (columns combined))
                     (flat_map (fun df => map snd (rows df)) dfs)).
Proof.
  unfold concat. destruct dfs; [discriminate|]. intros H; by inversion H.
Qed.


Lemma process_sales_data_spec input_files output_file w :
  process_sales_data input_files output_file w =
  (Ok tt,
   let w' := log w (all_events (fs w) input_files) in
   match concat (all_frames (fs w) input_files) with
   | Raise _ => log w' [NoDataProcessed]
   | Ok combined_df => written w' output_file combined_df
   end).
Proof.
  unfold process_sales_data, bind at 1. rewrite for_each_spec. simpl.
  destruct (all_frames (fs w) input_files) as [|df dfs] eqn:Hf.
  - reflexivity.
  - unfold bind, lift, try_except, to_csv, print, written; simpl.
    destruct (write_file _ _ _); simpl; [|done].
    unfold log; simpl. by rewrite <- app_assoc.
Qed.

End RunLemmas.

(** ** The frames of a run *)

Section FrameLemmas.
Context {L : Library}.

Lemma map_fst_first {A B C} (g : A -> C) (l : list (A * B)) :
  map fst (map (fun cd => (g cd.1, cd.2)) l) = map g (map fst l).
Proof. induction l as [|x l IH]; simpl; [done|]. by rewrite IH. Qed.

Lemma map_fst_with {A B C} (g : A * B -> C) (l : list (A * B)) :
  map fst (map (fun cd => (cd.1, g cd)) l) = map fst l.
Proof. induction l as [|x l IH]; simpl; [done|]. by rewrite IH. Qed.

Lemma transform_stage_columns df out :
  transform_stage df = Ok out -> map fst (columns out) = ["Sales"; "Date"; "Region"].
Proof.
  unfold transform_stage.
  repeat match goal with
         | |- rbind ?r _ = Ok _ -> _ => destruct r as [?|] eqn:?; cbn [rbind]; [|discriminate]
         end.
  match goal with
  | E : getitem_list _ _ = Ok ?d |- _ => apply getitem_list_rows in E as [Hcols _]; rename d into df4
  end.
  intros H; inversion H; subst; clear H. unfold rename; cbn [columns].
  by rewrite map_fst_first, Hcols.
Qed.

(** The frame of a file: one Output Record per row the Filter keeps, in
    order, under the row's label. *)
Lemma frame_rows files path df_output :
  file_outcome files path = Frame df_output ->
  exists df,
    load files path = Ok df /\
    map fst (columns df_output) = ["Sales"; "Date"; "Region"] /\
    Forall2 (sales_rel (lookup_column "price" (columns df)) (lookup_column "Sales" (columns df)))
            (List.filter pink_row (rows df)) (rows df_output) /\
    map fst (rows df_output) = map fst (List.filter pink_row (rows df)).
Proof.
  unfold file_outcome.
  destruct (files !! path); [|discriminate].
  destruct (load files path) as [df|]; [|discriminate].
  destruct (filter_stage df) as [df_pink|] eqn:Hf; [|discriminate].
  destruct (empty df_pink); [discriminate|].
  destruct (transform_stage df_pink) as [out|] eqn:Ht; [|discriminate].
  intros H; inversion H; subst; clear H.
  apply filter_stage_rows in Hf as [Hcols Hrows].
  pose proof (transform_stage_rows _ _ Ht) as Hrel. rewrite Hrows, Hcols in Hrel.
  exists df. split; [done|]. split; [by eapply transform_stage_columns|]. split; [done|].
  eapply Forall2_map_fst; [exact Hrel|]. by intros ir o [? _].
Qed.

Lemma frame_retained files path df_output :
  file_outcome files path = Frame df_output ->
  Forall2 record_rel (retained files path) (map snd (rows df_output)).
Proof.
  intros H. destruct (frame_rows _ _ _ H) as (df & Hl & _ & Hr & _).
  unfold retained. rewrite H, Hl. apply Forall2_map_right.
  eapply Forall2_impl; [exact Hr|]. intros ir [i o] Hrel. simpl. unfold record_rel. eauto.
Qed.

Lemma retained_no_frame files path :
  frames_of (file_outcome files path) = [] -> retained files path = [].
Proof.
  unfold retained. by destruct (file_outcome files path).
Qed.

Lemma range_index_snd {A B} (g : A -> B) (l : list A) :
  map (fun ix => g ix.2) (range_index l) = map g l.
Proof.
  unfold range_index.
  assert (forall (h : nat -> A -> Z * A), (forall i x, (h i x).2 = x) ->
            map (fun ix => g ix.2) (imap h l) = map g l) as H.
  { induction l as [|x l IH]; intros h Hh; simpl; [done|].
    rewrite Hh, IH; [done|]. intros i y. apply Hh. }
  by apply H.
Qed.

Lemma range_index_values {A} (l : list A) : map snd (range_index l) = l.
Proof. rewrite (range_index_snd (fun x => x)). apply map_id. Qed.

Lemma range_index_labels {A} (l : list A) :
  map fst (range_index l) = map Z.of_nat (seq 0 (length l)).
Proof.
  unfold range_index.
  assert (forall (h : nat -> A -> Z * A) (g : nat -> Z), (forall i x, (h i x).1 = g i) ->
            map fst (imap h l) = map g (seq 0 (length l))) as H.
  { induction l as [|x l IH]; intros h g Hh; simpl; [done|].
    rewrite Hh. f_equal. rewrite <- seq_shift, List.map_map.
    apply IH. intros i y. apply Hh. }
  by apply H.
Qed.

Lemma range_index_length {A} (l : list A) : length (range_index l) = length l.
Proof. unfold range_index. by rewrite length_imap. Qed.

Lemma range_index_elem {A} (l : list A) i x :
  (i, x) ∈ range_index l <-> (0 <= i /\ l !! Z.to_nat i = Some x).
Proof.
  unfold range_index. rewrite elem_of_lookup_imap. split.
  - intros (n & y & Heq & Hn). inversion Heq; subst.
    rewrite Nat2Z.id. split; [lia|done].
  - intros [Hi Hx]. exists (Z.to_nat i), x. split; [|done].
    f_equal. lia.
Qed.

(** The records of all frames belong to the retained rows, one by one. *)
Lemma all_frames_records files input_files :
  Forall2 record_rel (retained_rows files input_files)
          (flat_map (fun df => map snd (rows df)) (all_frames files input_files)).
Proof.
  unfold all_frames, retained_rows.
  induction input_files as [|path l IH]; simpl; [constructor|].
  rewrite flat_map_app. apply Forall2_app; [|exact IH].
  destruct (file_outcome files path) as [| | |out] eqn:Ho; simpl;
    try (rewrite retained_no_frame by (by rewrite Ho); constructor).
  rewrite app_nil_r. by apply frame_retained.
Qed.

Lemma has_column_elem c cols : has_column c cols = true <-> c ∈ map fst cols.
Proof.
  unfold has_column. induction cols as [|[c' d] cols IH]; simpl.
  - split; [discriminate|]. by intros ?%elem_of_nil.
  - destruct (String.eqb_spec c c') as [->|Hne].
    + split; [|done]. intros _. apply list_elem_of_here.
    + rewrite IH. split; [apply list_elem_of_further|].
      intros [?|?]%elem_of_cons; [done|done].
Qed.

Lemma union_columns_nil cols : union_columns [] cols = cols.
Proof.
  unfold union_columns; simpl. induction cols as [|cd cols IH]; simpl; [done|]. by rewrite IH.
Qed.

Lemma union_columns_same acc cols :
  map fst cols = map fst acc -> union_columns acc cols = acc.
Proof.
  intros H. unfold union_columns.
  assert (List.filter (fun cd : string * dtype => negb (has_column cd.1 acc)) cols = []) as ->;
    [|by rewrite app_nil_r].
  assert (Forall (fun cd => cd.1 ∈ map fst acc) cols) as HF.
  { rewrite <- H. apply Forall_forall. intros cd Hcd.
    apply list_elem_of_In, in_map_iff. exists cd. split; [done|]. by apply list_elem_of_In. }
  clear H. induction HF as [|cd cols Hcd _ IH]; [done|].
  simpl. apply has_column_elem in Hcd. by rewrite Hcd.
Qed.

Lemma all_frames_columns files input_files :
  Forall (fun df => map fst (columns df) = ["Sales"; "Date"; "Region"])
         (all_frames files input_files).
Proof.
  unfold all_frames. induction input_files as [|path l IH]; simpl; [constructor|].
  apply Forall_app. split; [|done].
  destruct (file_outcome files path) as [| | |out] eqn:Ho; simpl; try constructor; [|constructor].
  by destruct (frame_rows _ _ _ Ho) as (? & _ & ? & _).
Qed.

Lemma concat_columns dfs combined :
  Forall (fun df => map fst (columns df) = ["Sales"; "Date"; "Region"]) dfs ->
  concat dfs = Ok combined ->
  map fst (columns combined) = ["Sales"; "Date"; "Region"].
Proof.
  unfold concat. destruct dfs as [|df dfs]; [discriminate|].
  intros HF H; inversion H; subst; clear H. cbn [columns].
  rewrite map_fst_with.
  inversion HF as [|? ? Hdf Hdfs]; subst. simpl.
  rewrite union_columns_nil.
  revert Hdf. generalize (columns df) as acc. clear HF.
  induction Hdfs as [|df' dfs Hdf' _ IH]; intros acc Hacc; simpl; [done|].
  rewrite union_columns_same by congruence. by apply IH.
Qed.

Lemma same_value_concat d v : same_value v (concat_value d v).
Proof. destruct d, v; simpl; first [by left | by right]. Qed.

(** A row of the concatenation holds the three fields of the record it
    comes from, and nothing else. *)
Lemma concat_row_record cols (r : Row) :
  map fst cols = ["Sales"; "Date"; "Region"] ->
  same_record r (concat_row cols r) /\
  dom (concat_row cols r) = ({["Sales"; "Date"; "Region"]} : gset string).
Proof.
  destruct cols as [|[c1 d1] [|[c2 d2] [|[c3 d3] [|? ?]]]]; try discriminate.
  simpl. intros H; inversion H; subst; clear H.
  unfold concat_row; simpl. split.
  - unfold same_record. rewrite !cell_insert; simpl.
    repeat split; apply same_value_concat.
  - rewrite !dom_insert_L, dom_empty_L. set_solver.
Qed.

(** The rows of the combined frame belong to the retained rows, one by
    one: each holds the record of its row, up to the conversion of
    integers in a float64 column. *)
Lemma combined_records files input_files combined :
  concat (all_frames files input_files) = Ok combined ->
  Forall2 (fun ir o' => exists o, record_rel ir o /\ same_record o o'.2 /\
                                  dom o'.2 = ({["Sales"; "Date"; "Region"]} : gset string))
          (retained_rows files input_files) (rows combined).
Proof.
  intros Hc. pose proof (concat_columns _ _ (all_frames_columns _ _) Hc) as Hcols.
  assert (Forall2 (fun (ir : Z * Row) (o' : Row) =>
                     exists o, record_rel ir o /\ same_record o o' /\
                               dom o' = ({["Sales"; "Date"; "Region"]} : gset string))
                  (retained_rows files input_files) (map snd (rows combined))) as H.
  { rewrite (concat_rows _ _ Hc), range_index_values. apply Forall2_map_right.
    eapply Forall2_impl; [apply all_frames_records|]. simpl. intros ir o Hrel.
    exists o. split; [done|]. by apply concat_row_record. }
  revert H. generalize (rows combined). intros l H.
  remember (map snd l) as l' eqn:Hl'. revert l Hl'.
  induction H as [|ir o' rs l' Hrel _ IH]; intros [|io l] Hl'; try discriminate; constructor.
  - simpl in Hl'. inversion Hl'; subst. exact Hrel.
  - apply IH. simpl in Hl'. by inversion Hl'.
Qed.


Lemma combined_frame_eq w input_files :
  combined_frame w input_files = concat (all_frames (fs w) input_files).
Proof. unfold combined_frame. by rewrite for_each_spec. Qed.

End FrameLemmas.

(** ** When the stages succeed *)

Section Progress.
Context {L : Library}.

Lemma rmapM_ok {A B} (f : A -> result B) (l : list A) :
  Forall (fun x => is_ok (f x) = true) l -> exists l', rmapM f l = Ok l'.
Proof.
  induction 1 as [|x l Hx _ [l' IH]]; simpl; [eauto|].
  destruct (f x) as [y|]; [|discriminate]. simpl. rewrite IH. simpl. eauto.
Qed.

Lemma has_column_lookup c cols :
  has_column c cols = true -> exists d, lookup_column c cols = Some d.
Proof. unfold has_column. destruct (lookup_column c cols); [eauto|discriminate]. Qed.

Lemma has_column_set_dtype c c' d cols :
  has_column c (set_dtype c' d cols) = (String.eqb c c' || has_column c cols).
Proof.
  unfold has_column. rewrite lookup_column_set_dtype. by destruct (String.eqb c c').
Qed.

Lemma getitem_ok df c : has_column c (columns df) = true -> exists s, getitem df c = Ok s.
Proof.
  intros [d Hd]%has_column_lookup. unfold getitem. rewrite Hd. eauto.
Qed.

Lemma getitem_has_column df c s : getitem df c = Ok s -> has_column c (columns df) = true.
Proof.
  unfold getitem, has_column. by destruct (lookup_column c (columns df)).
Qed.

Lemma astype_float_ok df s :
  getitem df "price" = Ok s ->
  Forall (fun ir => is_ok (price_value ir.2) = true) (rows df) ->
  exists s', astype_float (replace_dollar s) = Ok s'.
Proof.
  intros Hs%getitem_data HF. unfold astype_float, replace_dollar; simpl.
  rewrite Hs, !rmapM_map; simpl.
  match goal with |- context [rmapM ?f (rows df)] => destruct (rmapM_ok f (rows df)) as [P HP] end.
  - eapply Forall_impl; [exact HF|]. simpl. intros ir. unfold price_value.
    by destruct (to_float _).
  - rewrite HP. simpl. eauto.
Qed.

Lemma to_numeric_ok df s :
  getitem df "quantity" = Ok s ->
  Forall (fun ir => is_ok (quantity_value ir.2) = true) (rows df) ->
  exists s', to_numeric s = Ok s'.
Proof.
  intros Hs%getitem_data HF. unfold to_numeric. rewrite Hs, !rmapM_map; simpl.
  match goal with |- context [rmapM ?f (rows df)] => destruct (rmapM_ok f (rows df)) as [Q HQ] end.
  - eapply Forall_impl; [exact HF|]. simpl. intros ir. unfold quantity_value.
    by destruct (numeric_value _).
  - rewrite HQ. simpl. destruct (s_dtype s); [destruct (existsb _ Q)| | |]; eauto.
Qed.

Lemma mul_data_ok {A} (exact : bool) (f g : A -> Z * value) (l : list A) :
  Forall (fun x => is_number (f x).2 = true /\ is_number (g x).2 = true) l ->
  exists d, mul_data exact (map f l) (map g l) = Ok d.
Proof.
  induction 1 as [|x l [Hf Hg] _ [d IH]]; simpl; [eauto|].
  destruct (mul_value_number exact _ _ Hf Hg) as [s ->]. simpl. rewrite IH. simpl. eauto.
Qed.

Lemma mul_series_ok df a b sa sb :
  getitem df a = Ok sa -> getitem df b = Ok sb ->
  Forall (fun ir => is_number (cell ir.2 a) = true /\ is_number (cell ir.2 b) = true) (rows df) ->
  exists s, mul_series sa sb = Ok s.
Proof.
  intros Ha%getitem_data Hb%getitem_data HF. unfold mul_series. rewrite Ha, Hb.
  match goal with
  | |- context [mul_data ?e _ _] =>
      destruct (mul_data_ok e (fun ir : Z * Row => (ir.1, cell ir.2 a))
                            (fun ir : Z * Row => (ir.1, cell ir.2 b)) (rows df) HF) as [d Hd]
  end.
  rewrite Hd. simpl. eauto.
Qed.

Lemma getitem_list_ok df cs :
  Forall (fun c => has_column c (columns df) = true) cs -> exists df', getitem_list df cs = Ok df'.
Proof.
  intros HF. unfold getitem_list.
  match goal with |- context [rmapM ?f cs] => destruct (rmapM_ok f cs) as [cols Hc] end.
  - eapply Forall_impl; [exact HF|]. simpl. intros c [d Hd]%has_column_lookup. by rewrite Hd.
  - rewrite Hc. simpl. eauto.
Qed.

Lemma getitem_list_has_columns df cs df' :
  getitem_list df cs = Ok df' -> Forall (fun c => has_column c (columns df) = true) cs.
Proof.
  unfold getitem_list. destruct (rmapM _ cs) as [cols|] eqn:Hc; simpl; [|discriminate].
  intros _. apply rmapM_Forall2 in Hc.
  induction Hc as [|c cd cs cols Hcd _ IH]; constructor; [|exact IH].
  unfold has_column. by destruct (lookup_column c (columns df)).
Qed.

Ltac rbind_step E :=
  match goal with
  | |- rbind ?r _ = Ok _ -> _ => destruct r eqn:E; cbn [rbind]; [|discriminate]
  end.

Lemma transform_stage_needs df out :
  transform_stage df = Ok out ->
  has_transform_columns (columns df) = true /\ Forall (fun ir => convertible ir = true) (rows df).
Proof.
  intros H. split.
  - revert H. unfold transform_stage.
    rbind_step E1. rbind_step E2. rbind_step E3. rbind_step E4.
    rbind_step E5. rbind_step E6. rbind_step E7. rbind_step E8.
    intros _. apply getitem_has_column in E1, E3.
    apply getitem_list_has_columns in E8.
    inversion E8 as [|? ? _ E9]; subst. inversion E9 as [|? ? Hd E10]; subst.
    inversion E10 as [|? ? Hr _]; subst.
    cbn [loc_setitem columns] in E3, Hd, Hr.
    rewrite !has_column_set_dtype in E3.
    rewrite !has_column_set_dtype in Hd. rewrite !has_column_set_dtype in Hr.
    simpl in E3, Hd, Hr.
    unfold has_transform_columns. by rewrite E1, E3, Hd, Hr.
  - apply transform_stage_rows in H.
    eapply Forall2_Forall_left; [|exact H].
    intros ir o (_ & pv & qv & p & q & exact & s0 & s & Hp & Hq & _).
    unfold convertible. by rewrite Hp, Hq.
Qed.

Lemma upcast_float_number v : is_number v = true -> is_number (upcast_float v) = true.
Proof. by destruct v. Qed.

Lemma transform_stage_ok df :
  has_transform_columns (columns df) = true ->
  Forall (fun ir => convertible ir = true) (rows df) ->
  exists out, transform_stage df = Ok out.
Proof.
  unfold has_transform_columns. intros Hcols HF.
  apply andb_true_iff in Hcols as [Hcols Hr]. apply andb_true_iff in Hcols as [Hcols Hd].
  apply andb_true_iff in Hcols as [Hp Hq].
  assert (Forall (fun ir => is_ok (price_value ir.2) = true) (rows df)) as HFp.
  { eapply Forall_impl; [exact HF|]. intros ir. unfold convertible. by intros [? ?]%andb_true_iff. }
  assert (Forall (fun ir => is_ok (quantity_value ir.2) = true) (rows df)) as HFq.
  { eapply Forall_impl; [exact HF|]. intros ir. unfold convertible. by intros [? ?]%andb_true_iff. }
  unfold transform_stage.
  destruct (getitem_ok df "price" Hp) as [s1 E1]. rewrite E1; cbn [rbind].
  destruct (astype_float_ok df s1 E1 HFp) as [price E2]. rewrite E2; cbn [rbind].
  pose proof (loc_setitem_rows _ _ "price" _ (astype_float_spec _ _ _ E1 E2)) as H1.
  assert (has_column "quantity" (columns (loc_setitem df "price" price)) = true) as Hq1.
  { cbn [loc_setitem columns]. by rewrite has_column_set_dtype, Hq, orb_true_r. }
  assert (has_column "price" (columns (loc_setitem df "price" price)) = true) as Hp1.
  { cbn [loc_setitem columns]. by rewrite has_column_set_dtype. }
  assert (has_column "date" (columns (loc_setitem df "price" price)) = true) as Hd1.
  { cbn [loc_setitem columns]. by rewrite has_column_set_dtype, Hd, orb_true_r. }
  assert (has_column "region" (columns (loc_setitem df "price" price)) = true) as Hr1.
  { cbn [loc_setitem columns]. by rewrite has_column_set_dtype, Hr, orb_true_r. }
  set (df1 := loc_setitem df "price" price) in *.
  destruct (getitem_ok df1 "quantity" Hq1) as [s2 E3]. rewrite E3; cbn [rbind].
  assert (Forall (fun ir => is_ok (quantity_value ir.2) = true /\
                            is_number (cell ir.2 "price") = true) (rows df1)) as HF1.
  { eapply (Forall2_Forall_right _ (fun ir => is_ok (quantity_value ir.2) = true));
      [|exact HFq|exact H1].
    intros ir ir1 Hok ([j v] & v' & (_ & f & _ & Hv) & Hheld & ->); simpl in *; subst v.
    unfold quantity_value. rewrite !cell_insert; simpl. split; [exact Hok|].
    by eapply held_as_number. }
  destruct (to_numeric_ok df1 s2 E3) as [quantity E4].
  { eapply Forall_impl; [exact HF1|]. by intros ir [? _]. }
  rewrite E4; cbn [rbind].
  destruct (to_numeric_spec _ _ _ E3 E4) as [_ Hqs].
  pose proof (loc_setitem_rows _ _ "quantity" _ Hqs) as H2.
  assert (has_column "price" (columns (loc_setitem df1 "quantity" quantity)) = true) as Hp2.
  { cbn [loc_setitem columns]. by rewrite has_column_set_dtype, Hp1, orb_true_r. }
  assert (has_column "quantity" (columns (loc_setitem df1 "quantity" quantity)) = true) as Hq2.
  { cbn [loc_setitem columns]. by rewrite has_column_set_dtype. }
  assert (has_column "date" (columns (loc_setitem df1 "quantity" quantity)) = true) as Hd2.
  { cbn [loc_setitem columns]. by rewrite has_column_set_dtype, Hd1, orb_true_r. }
  assert (has_column "region" (columns (loc_setitem df1 "quantity" quantity)) = true) as Hr2.
  { cbn [loc_setitem columns]. by rewrite has_column_set_dtype, Hr1, orb_true_r. }
  set (df2 := loc_setitem df1 "quantity" quantity) in *.
  destruct (getitem_ok df2 "price" Hp2) as [s3 E5]. rewrite E5; cbn [rbind].
  destruct (getitem_ok df2 "quantity" Hq2) as [s4 E6]. rewrite E6; cbn [rbind].
  destruct (mul_series_ok df2 "price" "quantity" s3 s4 E5 E6) as [sales E7].
  { eapply (Forall2_Forall_right _ _ _ _ _ _ HF1 H2). Unshelve.
    intros ir ir2 [Hok Hnum] ([j v] & v' & (_ & qv & Hqv & Hv) & Hheld & ->); simpl in *.
    rewrite !cell_insert; simpl. split; [exact Hnum|].
    eapply held_as_number; [exact Hheld|].
    apply quantity_value_number in Hqv.
    destruct Hv as [->| ->]; [done|by apply upcast_float_number]. }
  rewrite E7; cbn [rbind].
  destruct (getitem_list_ok (loc_setitem df2 "Sales" sales) ["Sales"; "date"; "region"]) as [df4 E8].
  { cbn [loc_setitem columns].
    repeat constructor; rewrite !has_column_set_dtype; simpl; by rewrite ?Hd2, ?Hr2. }
  rewrite E8; cbn [rbind]. eauto.
Qed.

Lemma filter_stage_ok_iff df df_pink :
  filter_stage df = Ok df_pink <->
  lookup_column "product" (columns df) = Some object /\
  df_pink = {| columns := columns df; rows := List.filter pink_row (rows df) |}.
Proof.
  split.
  - intros H. pose proof (filter_stage_rows _ _ H) as [Hc Hr]. split.
    + revert H. unfold filter_stage, getitem, str_lower.
      destruct (lookup_column "product" (columns df)) as [[]|]; simpl; by try discriminate.
    + destruct df_pink; simpl in *. by subst.
  - intros [Hcol ->]. unfold filter_stage, getitem, str_lower. rewrite Hcol. simpl.
    unfold getitem_mask, eq_scalar; simpl. rewrite !List.map_map; simpl.
    f_equal. f_equal. apply mask_rows_map.
Qed.

Lemma load_exists files path df :
  load files path = Ok df -> exists n, files !! path = Some n.
Proof. unfold load. destruct (files !! path); [eauto|discriminate]. Qed.

(** A file yields a frame exactly when it is processed without any
    error and has a matching row. *)
Lemma file_outcome_frame files path :
  (exists df_output, file_outcome files path = Frame df_output) <->
  (exists df,
     load files path = Ok df /\
     lookup_column "product" (columns df) = Some object /\
     List.filter pink_row (rows df) <> [] /\
     has_transform_columns (columns df) = true /\
     Forall (fun ir => convertible ir = true) (List.filter pink_row (rows df))).
Proof.
  split.
  - intros [out H]. revert H. unfold file_outcome.
    destruct (files !! path); [|discriminate].
    destruct (load files path) as [df|]; [|discriminate].
    destruct (filter_stage df) as [df_pink|] eqn:Hfs; [|discriminate].
    destruct (empty df_pink) eqn:He; [discriminate|].
    destruct (transform_stage df_pink) as [out'|] eqn:Ht; [|discriminate].
    intros _. apply filter_stage_ok_iff in Hfs as [Hcol ->].
    apply transform_stage_needs in Ht as [Hcols Hconv]. simpl in *.
    exists df. repeat split; try done.
    intros Hnil. unfold empty in He. simpl in He. by rewrite Hnil in He.
  - intros (df & Hl & Hcol & Hne & Hcols & Hconv).
    set (df_pink := {| columns := columns df; rows := List.filter pink_row (rows df) |}).
    assert (filter_stage df = Ok df_pink) as Hfs by (by apply filter_stage_ok_iff).
    destruct (transform_stage_ok df_pink Hcols Hconv) as [out Hout].
    exists out. unfold file_outcome. rewrite Hl, Hfs, Hout.
    destruct (load_exists _ _ _ Hl) as [n ->].
    assert (empty df_pink = false) as ->; [|done].
    unfold empty, df_pink; simpl. destruct (List.filter pink_row (rows df)); [done|].
    unfold has_transform_columns in Hcols. by destruct (columns df).
Qed.

Lemma processed_frame files path :
  processed files path = true -> matching_rows files path <> 0%nat ->
  exists df_output, file_outcome files path = Frame df_output.
Proof.
  unfold processed, matching_rows. intros Hp Hm.
  destruct (load files path) as [df|] eqn:Hl; [|discriminate].
  apply andb_true_iff in Hp as [Hp Hconv]. apply andb_true_iff in Hp as [Hcol Hcols].
  apply bool_decide_eq_true in Hcol.
  apply file_outcome_frame. exists df. split; [done|]. split; [done|]. split.
  - intros Hnil. by rewrite Hnil in Hm.
  - split; [done|]. apply Forall_forall. intros x Hx.
    rewrite forallb_forall in Hconv. apply Hconv. by apply list_elem_of_In.
Qed.

Lemma frame_processed files path df_output :
  file_outcome files path = Frame df_output -> processed files path = true.
Proof.
  intros Ho.
  destruct (proj1 (file_outcome_frame files path)) as (df & Hl & Hcol & Hne & Hcols & Hconv);
    [eauto|].
  unfold processed. rewrite Hl, Hcols. rewrite bool_decide_eq_true_2 by done. simpl.
  apply forallb_forall. intros x Hx. rewrite Forall_forall in Hconv.
  apply Hconv. by apply list_elem_of_In.
Qed.

Lemma processed_outcome files path :
  (if processed files path then matching_rows files path else 0%nat) =
  match file_outcome files path with
  | Frame _ => matching_rows files path
  | _ => 0%nat
  end.
Proof.
  destruct (file_outcome files path) as [| | |out] eqn:Ho.
  4:{ by rewrite (frame_processed _ _ _ Ho). }
  all: destruct (processed files path) eqn:Hp; [|done].
  all: destruct (Nat.eq_dec (matching_rows files path) 0%nat) as [Hm|Hm]; [by rewrite Hm|].
  all: destruct (processed_frame _ _ Hp Hm) as [out Hout]; congruence.
Qed.

End Progress.

(** ** The properties *)

Lemma load_frame {L : Library} files path df :
  load files path = Ok df -> exists t, df = frame_of_table t.
Proof.
  unfold load. destruct (files !! path) as [[b data|]|]; try discriminate.
  destruct (parse_csv data) as [t|]; simpl; [|discriminate].
  intros H; inversion H. eauto.
Qed.

Lemma frame_labels_unique (t : Table) i r r' :
  (i, r) ∈ rows (frame_of_table t) -> (i, r') ∈ rows (frame_of_table t) -> r = r'.
Proof.
  unfold frame_of_table; simpl. rewrite !range_index_elem.
  intros [_ H1] [_ H2]. congruence.
Qed.

Lemma elem_of_filter {A} (f : A -> bool) (l : list A) x :
  x ∈ List.filter f l <-> x ∈ l /\ f x = true.
Proof. rewrite !list_elem_of_In. apply filter_In. Qed.

Lemma output_record_cells (s : value) (r : Row) :
  cell (output_record s r) "Sales" = s /\
  cell (output_record s r) "Date" = cell r "date" /\
  cell (output_record s r) "Region" = cell r "region".
Proof. unfold output_record. by rewrite !cell_insert. Qed.

(** A label of the frame of a file is the label of a row the Filter
    kept. *)
Lemma frame_label_kept {L : Library} files path df df_output i :
  file_outcome files path = Frame df_output -> load files path = Ok df ->
  i ∈ map fst (rows df_output) -> exists r, (i, r) ∈ rows df /\ pink_row (i, r) = true.
Proof.
  intros Hfo Hload Hi.
  destruct (frame_rows _ _ _ Hfo) as (df' & Hl & _ & _ & Hlab).
  rewrite Hload in Hl; inversion Hl; subst df'; clear Hl.
  rewrite Hlab in Hi. apply list_elem_of_In, in_map_iff in Hi as ([j r] & Heq & Hj).
  simpl in Heq; subst j. apply list_elem_of_In, elem_of_filter in Hj as [Hj Hp]. eauto.
Qed.

(** C1. A row whose product, lower-cased, differs from "pink morsel" has
    no Output Record in the frame its file contributes; a row whose
    product, lower-cased, equals it is kept by the Filter stage; the
    Filter returns exactly those rows, in their order; and it completes
    whenever the product column is a text column. *)
Theorem filter_keeps_exactly_the_pink_rows {L : Library} (w : World) (path : string)
    (df : DataFrame) (i : Z) (r : Row) :
  load (fs w) path = Ok df -> (i, r) ∈ rows df ->
  (lower_value (cell r "product") <> VStr "pink morsel" ->
     forall frames w', loop_body [] path w = (Ok frames, w') ->
     forall df_output o, df_output ∈ frames -> (i, o) ∉ rows df_output) /\
  (lower_value (cell r "product") = VStr "pink morsel" ->
     forall df_pink, filter_stage df = Ok df_pink -> (i, r) ∈ rows df_pink) /\
  (forall df_pink, filter_stage df = Ok df_pink ->
     rows df_pink =
       List.filter (fun ir => bool_decide (lower_value (cell ir.2 "product") = VStr "pink morsel"))
                   (rows df)) /\
  (lookup_column "product" (columns df) = Some object ->
     exists df_pink, filter_stage df = Ok df_pink).
Proof.
  intros Hload Hin. split; [|split; [|split]].
  - intros Hne frames w' Hbody out o Hout Ho.
    rewrite loop_body_spec in Hbody. inversion Hbody; subst; clear Hbody.
    simpl in Hout. destruct (file_outcome (fs w) path) as [| | |out'] eqn:Hfo;
      simpl in Hout; try by apply elem_of_nil in Hout.
    apply list_elem_of_singleton in Hout; subst out'.
    destruct (frame_label_kept _ _ _ _ i Hfo Hload) as (r' & Hj & Hpink).
    { apply list_elem_of_In, in_map_iff. exists (i, o). split; [done|]. by apply list_elem_of_In. }
    destruct (load_frame _ _ _ Hload) as [t ->].
    pose proof (frame_labels_unique _ _ _ _ Hin Hj) as <-.
    unfold pink_row, is_pink in Hpink; simpl in Hpink.
    by apply bool_decide_eq_true in Hpink.
  - intros Heq df_pink Hf. apply filter_stage_rows in Hf as [_ ->].
    apply elem_of_filter. split; [done|].
    unfold pink_row, is_pink; simpl. by apply bool_decide_eq_true.
  - intros df_pink Hf. by apply filter_stage_rows in Hf as [_ ->].
  - intros Hcol. unfold filter_stage, getitem, str_lower. rewrite Hcol. simpl. eauto.
Qed.

Lemma filter_keeps_exactly_the_pink_rows_witness :
  @load Reference.library (fs Sample.world) "a.csv" = Ok (Sample.frame_of "a.csv") /\
  (1, (Sample.row_of "a.csv" 1).2) ∈ rows (Sample.frame_of "a.csv") /\
  lower_value (cell (Sample.row_of "a.csv" 1).2 "product") <> VStr "pink morsel" /\
  forall frames w', @loop_body Reference.library [] "a.csv" Sample.world = (Ok frames, w') ->
  forall df_output o, df_output ∈ frames -> (1, o) ∉ rows df_output.
Proof.
  assert (@load Reference.library (fs Sample.world) "a.csv" = Ok (Sample.frame_of "a.csv")) as H1
    by compute_done.
  assert ((1, (Sample.row_of "a.csv" 1).2) ∈ rows (Sample.frame_of "a.csv")) as H2
    by compute_done.
  assert (lower_value (cell (Sample.row_of "a.csv" 1).2 "product") <> VStr "pink morsel") as H3
    by compute_done.
  split; [exact H1|]. split; [exact H2|]. split; [exact H3|].
  exact (proj1 (filter_keeps_exactly_the_pink_rows Sample.world "a.csv" _ 1 _ H1 H2) H3).
Defined.




(** The run of the example of the specification: the one matching row
    of [a.csv], 1.50 times 4. *)
Example sales_example :
  cell (Sample.row_of "a.csv" 0).2 "price" = VStr "$1.50" /\
  map snd (rows (Sample.output_of "a.csv")) =
    [output_record (VFloat (S754_finite false 6755399441055744 (-50)))
                   (Sample.row_of "a.csv" 0).2] /\
  Reference.float_repr (S754_finite false 6755399441055744 (-50)) = "6.0".
Proof. repeat split; compute_done. Qed.

(** A per-file error leaves the file without a frame. *)
Lemma per_file_error_outcome {L : Library} files path :
  per_file_error files path ->
  file_outcome files path = Missing \/ exists e, file_outcome files path = Failed e.
Proof.
  assert (forall df ir, load files path = Ok df -> ir ∈ rows df -> pink_row ir = true ->
            convertible ir = false ->
            file_outcome files path = Missing \/ exists e, file_outcome files path = Failed e) as Hrow.
  { intros df ir Hl Hin Hpink Hno. unfold file_outcome. rewrite Hl.
    destruct (files !! path); [|by left]. right.
    destruct (filter_stage df) as [df_pink|e] eqn:Hf; [|eauto].
    pose proof (filter_stage_rows _ _ Hf) as [Hcols Hrows].
    assert (ir ∈ rows df_pink) as Hir by (rewrite Hrows; by apply elem_of_filter).
    assert (empty df_pink = false) as ->.
    { unfold empty. destruct (rows df_pink); [by apply elem_of_nil in Hir|].
      rewrite Hcols. revert Hf. unfold filter_stage, getitem.
      by destruct (columns df). }
    destruct (transform_stage df_pink) as [out|e] eqn:Ht; [|eauto].
    apply transform_stage_needs in Ht as [_ Hconv].
    rewrite Forall_forall in Hconv. specialize (Hconv _ Hir). congruence. }
  intros [Hm|Hd|b data e Hp He|df e Hl Hf|df df_pink e Hl Hf He Ht
          |df ir e Hl Hin Hpink He|df ir e Hl Hin Hpink He].
  - left. unfold file_outcome. by rewrite Hm.
  - right. exists OSError. unfold file_outcome, load. by rewrite Hd.
  - right. exists e. unfold file_outcome, load. by rewrite Hp, He.
  - unfold file_outcome. rewrite Hl, Hf. destruct (files !! path); eauto.
  - unfold file_outcome. rewrite Hl, Hf, He, Ht. destruct (files !! path); eauto.
  - apply (Hrow df ir); try done. unfold convertible. by rewrite He.
  - apply (Hrow df ir); try done. unfold convertible. rewrite He. apply andb_false_r.
Qed.

(** C3. A per-file error (missing file, file that cannot be opened or
    parsed, price or quantity of a kept row that is not a number) is
    caught in the iteration of that file: the iteration returns without
    raising and appends nothing, whatever other rows the file has, and
    the loop goes on with the files after it as if the file were not in
    the list. *)
Theorem per_file_error_is_isolated {L : Library} (w : World) (path : string)
    (before after : list string) (frames_before frames_after : list DataFrame)
    (w_before w_after : World) :
  per_file_error (fs w) path ->
  for_each before [] loop_body w = (Ok frames_before, w_before) ->
  for_each after [] loop_body w = (Ok frames_after, w_after) ->
  (forall acc, exists ev, loop_body acc path w = (Ok acc, log w [ev])) /\
  exists w',
    for_each (before ++ path :: after) [] loop_body w = (Ok (frames_before ++ frames_after), w') /\
    fs w' = fs w.
Proof.
  intros Herr Hb Ha.
  assert (frames_of (file_outcome (fs w) path) = [] /\
          exists ev, events_of path (file_outcome (fs w) path) = [ev]) as [Hnone [ev Hev]].
  { destruct (per_file_error_outcome _ _ Herr) as [->|[e ->]]; simpl; eauto. }
  split.
  - intros acc. exists ev. by rewrite loop_body_spec, Hnone, Hev, app_nil_r.
  - rewrite for_each_spec in Hb, Ha. inversion Hb; inversion Ha; subst.
    exists (log w (all_events (fs w) (before ++ path :: after))).
    rewrite for_each_spec. split; [|reflexivity].
    unfold all_frames. rewrite flat_map_app. simpl. by rewrite Hnone.
Qed.

Lemma per_file_error_is_isolated_witness :
  @per_file_error Reference.library (fs Sample.world) "b.csv" /\
  exists w',
    @for_each _ _ ["a.csv"; "b.csv"; "d.csv"] [] (@loop_body Reference.library) Sample.world =
      (Ok (Sample.frames_after ["a.csv"] ++ Sample.frames_after ["d.csv"]), w') /\
    fs w' = fs Sample.world.
Proof.
  assert (@per_file_error Reference.library (fs Sample.world) "b.csv") as H1.
  { apply (error_quantity _ _ (Sample.frame_of "b.csv") (Sample.row_of "b.csv" 0)
             (ValueError "abc")); compute_done. }
  split; [exact H1|].
  refine (proj2 (per_file_error_is_isolated Sample.world "b.csv" ["a.csv"] ["d.csv"]
                   (Sample.frames_after ["a.csv"]) (Sample.frames_after ["d.csv"])
                   (Sample.world_after ["a.csv"]) (Sample.world_after ["d.csv"]) H1 _ _));
    compute_done.
Defined.

(** A value that is not a number in a row the Filter drops raises
    nothing: the conversions run on the kept rows only. *)
Example bad_value_outside_filter :
  @numeric_value Reference.library (cell (Sample.row_of "e.csv" 1).2 "quantity") =
    Raise (ValueError "abc") /\
  map (fun df => length (rows df)) (Sample.frames_after ["e.csv"]) = [1%nat].
Proof. split; compute_done. Qed.

Lemma length_retained_rows {L : Library} files input_files :
  length (retained_rows files input_files) = processed_match_count files input_files.
Proof.
  unfold retained_rows, processed_match_count.
  induction input_files as [|path l IH]; simpl; [done|].
  rewrite length_app, IH. f_equal.
  unfold retained, matching_rows.
  destruct (file_outcome files path) as [| | |out] eqn:Ho; try done.
  destruct (frame_rows _ _ _ Ho) as (df & -> & _). done.
Qed.

Lemma processed_match_count_clean {L : Library} files input_files :
  processed_match_count files input_files = clean_match_count files input_files.
Proof.
  unfold processed_match_count, clean_match_count. f_equal.
  apply map_ext. intros path. symmetry. apply processed_outcome.
Qed.

Lemma data_rows_retained {L : Library} w input_files :
  data_rows w input_files = length (retained_rows (fs w) input_files).
Proof.
  unfold data_rows. rewrite combined_frame_eq.
  destruct (concat (all_frames (fs w) input_files)) as [combined|e] eqn:Hc.
  - symmetry. eapply Forall2_length, combined_records, Hc.
  - unfold concat in Hc. destruct (all_frames (fs w) input_files) eqn:Hf; [|discriminate].
    pose proof (all_frames_records (fs w) input_files) as Hrec. rewrite Hf in Hrec.
    simpl in Hrec. by inversion Hrec.
Qed.

(** C4, as stated, fails: [b.csv] parses and has one matching row, but
    its quantity is not a number, so it adds no row to the output. *)
Lemma row_count_counterexample :
  @data_rows Reference.library Sample.world ["a.csv"; "b.csv"] = 1%nat /\
  @parsed_match_count Reference.library (fs Sample.world) ["a.csv"; "b.csv"] = 2%nat.
Proof. split; compute_done. Qed.

(** C4, amended. The number of data rows of the output is the sum of
    the filtered row counts of the input files that are processed
    without any per-file error: the file loads, its product column is a
    text column, it has the price, quantity, date and region columns,
    and the price and the quantity of every row the Filter keeps convert
    to numbers. *)
Theorem row_count_is_sum_over_processed_files {L : Library} (w : World)
    (input_files : list string) :
  data_rows w input_files = clean_match_count (fs w) input_files.
Proof.
  by rewrite data_rows_retained, length_retained_rows, processed_match_count_clean.
Qed.

(** A file without a date column is no such file: [i.csv] parses, has a
    matching row with a price and a quantity that convert, and adds no
    row. *)
Example row_count_example :
  @processed Reference.library (fs Sample2.world) "i.csv" = false /\
  @matching_rows Reference.library (fs Sample2.world) "i.csv" = 1%nat /\
  @data_rows Reference.library Sample2.world ["a.csv"; "i.csv"] = 1%nat /\
  @clean_match_count Reference.library (fs Sample2.world) ["a.csv"; "i.csv"] = 1%nat.
Proof. repeat split; compute_done. Qed.

Lemma loop_frames {L : Library} (w : World) (input_files : list string) :
  flat_map (fun path => match loop_body [] path w with
                        | (Ok frames, _) => flat_map (fun df => map snd (rows df)) frames
                        | (Raise _, _) => []
                        end) input_files =
  flat_map (fun df => map snd (rows df)) (all_frames (fs w) input_files).
Proof.
  unfold all_frames. induction input_files as [|path l IH]; simpl; [done|].
  rewrite flat_map_app, loop_body_spec; simpl. by f_equal.
Qed.

(** C5. The rows of the combined frame are the records of the frames of
    the input files, one file after the other in the order of
    [input_files] and, within a file, in the order of the frame of the
    file: row by row they hold the fields of these records (an integer
    is a float where [pd.concat] makes the column a float64 column),
    under the labels 0, 1, 2, ...; and the records of one file follow
    the order of the rows of the file that the Filter kept, each with
    the date and the region of its row. *)
Theorem output_is_concatenation_in_input_order {L : Library} (w : World)
    (input_files : list string) (combined_df : DataFrame) :
  combined_frame w input_files = Ok combined_df ->
  Forall2 same_record
          (flat_map (fun path => match loop_body [] path w with
                                 | (Ok frames, _) => flat_map (fun df => map snd (rows df)) frames
                                 | (Raise _, _) => []
                                 end) input_files)
          (map snd (rows combined_df)) /\
  map fst (rows combined_df) = map Z.of_nat (seq 0 (length (rows combined_df))) /\
  forall path df df_output,
    load (fs w) path = Ok df -> (loop_body [] path w).1 = Ok [df_output] ->
    map fst (rows df_output) = map fst (List.filter pink_row (rows df)) /\
    Forall2 (fun ir o => cell o.2 "Date" = cell ir.2 "date" /\
                         cell o.2 "Region" = cell ir.2 "region")
            (List.filter pink_row (rows df)) (rows df_output).
Proof.
  intros Hc. rewrite combined_frame_eq in Hc. split; [|split].
  - rewrite loop_frames, (concat_rows _ _ Hc), range_index_values.
    apply Forall2_map_right, Forall_Forall2_diag, Forall_forall. intros o _.
    apply concat_row_record. exact (concat_columns _ _ (all_frames_columns _ _) Hc).
  - by rewrite (concat_rows _ _ Hc), range_index_length, range_index_labels.
  - intros path df out Hl Hbody. rewrite loop_body_spec in Hbody. simpl in Hbody.
    destruct (file_outcome (fs w) path) as [| | |out'] eqn:Hfo; try discriminate.
    simpl in Hbody. inversion Hbody; subst out'; clear Hbody.
    destruct (frame_rows _ _ _ Hfo) as (df' & Hl' & _ & Hrel & Hlab).
    rewrite Hl in Hl'; inversion Hl'; subst df'. split; [done|].
    eapply Forall2_impl; [exact Hrel|]. intros ir o Hs.
    apply sales_rel_record in Hs as [_ [s ->]].
    destruct (output_record_cells s ir.2) as (_ & ? & ?). done.
Qed.

Lemma output_is_concatenation_in_input_order_witness :
  @combined_frame Reference.library Sample2.world ["q.csv"; "f.csv"; "p.csv"; "a.csv"] =
    Ok (Sample2.combined_of ["q.csv"; "f.csv"; "p.csv"; "a.csv"]) /\
  Forall2 same_record
          (flat_map (fun path => match @loop_body Reference.library [] path Sample2.world with
                                 | (Ok frames, _) => flat_map (fun df => map snd (rows df)) frames
                                 | (Raise _, _) => []
                                 end) ["q.csv"; "f.csv"; "p.csv"; "a.csv"])
          (map snd (rows (Sample2.combined_of ["q.csv"; "f.csv"; "p.csv"; "a.csv"]))).
Proof.
  assert (@combined_frame Reference.library Sample2.world ["q.csv"; "f.csv"; "p.csv"; "a.csv"] =
            Ok (Sample2.combined_of ["q.csv"; "f.csv"; "p.csv"; "a.csv"])) as H by compute_done.
  split; [exact H|].
  exact (proj1 (output_is_concatenation_in_input_order Sample2.world _ _ H)).
Defined.

(** The order of the example: the two rows of [d.csv], then the row of
    [a.csv]; the files without a frame leave no trace. *)
Example order_example :
  map (fun ir => (ir.1, cell ir.2 "Date", cell ir.2 "Region"))
      (rows (Sample.combined_of ["c.csv"; "d.csv"; "b.csv"; "a.csv"])) =
  [(0, VStr "2018-02-06", VStr "south"); (1, VStr "2018-02-07", VStr "west");
   (2, VStr "2024-01-01", VStr "north")].
Proof. compute_done. Qed.

(** A region read as the integer 7 in one file and as 7.5 in another: the
    column of the combined frame is a float64 column, and the integer is
    the float 7.0 in it. *)
Example order_conversion_example :
  map (fun ir => cell ir.2 "Region") (rows (Sample2.frame_after "q.csv")) = [VInt 7] /\
  map (fun ir => (ir.1, cell ir.2 "Date", cell ir.2 "Region"))
      (rows (Sample2.combined_of ["q.csv"; "p.csv"])) =
  [(0, VStr "2024-01-02", VFloat (float_of_Z 7));
   (1, VStr "2024-01-01", VFloat (S754_finite false 8444249301319680 (-50)))].
Proof. split; compute_done. Qed.

(** C6. When no input file contributes a frame (each one is missing,
    fails, or has no matching row), the run prints the no-data line as
    its last line, leaves the file system as it was, so no output file is
    created or written, and returns without raising. *)
Theorem no_data_no_output {L : Library} (w : World) (input_files : list string)
    (output_file : string) :
  (forall path, path ∈ input_files -> (loop_body [] path w).1 = Ok []) ->
  exists evs,
    process_sales_data input_files output_file w =
      (Ok tt, {| fs := fs w; stdout := stdout w ++ evs ++ [NoDataProcessed] |}).
Proof.
  intros Hnone.
  assert (all_frames (fs w) input_files = []) as Hf.
  { unfold all_frames. induction input_files as [|path l IH]; simpl; [done|].
    rewrite IH by (intros p Hp; apply Hnone; by apply list_elem_of_further).
    specialize (Hnone path (list_elem_of_here _ _)).
    rewrite loop_body_spec in Hnone; simpl in Hnone. inversion Hnone as [H].
    by rewrite H. }
  exists (all_events (fs w) input_files).
  rewrite process_sales_data_spec, Hf. simpl. unfold log; simpl. by rewrite app_assoc.
Qed.

Lemma no_data_no_output_witness :
  (forall path, path ∈ ["missing.csv"; "b.csv"; "c.csv"; "data"] ->
                (@loop_body Reference.library [] path Sample.world).1 = Ok []) /\
  exists evs,
    @process_sales_data Reference.library ["missing.csv"; "b.csv"; "c.csv"; "data"] "out.csv"
                        Sample.world =
      (Ok tt, {| fs := fs Sample.world;
                 stdout := stdout Sample.world ++ evs ++ [NoDataProcessed] |}).
Proof.
  assert (forall path, path ∈ ["missing.csv"; "b.csv"; "c.csv"; "data"] ->
                       (@loop_body Reference.library [] path Sample.world).1 = Ok []) as H.
  { intros path Hin. repeat (apply elem_of_cons in Hin as [->|Hin]; [compute_done|]).
    by apply elem_of_nil in Hin. }
  split; [exact H|].
  exact (no_data_no_output Sample.world _ "out.csv" H).
Defined.

(** What the run of the example prints. *)
Example no_data_example :
  stdout (Sample.run ["missing.csv"; "b.csv"; "c.csv"; "data"] "out.csv" Sample.world) =
  [FileNotFound "missing.csv"; ProcessingError "b.csv" (ValueError "abc");
   NoPinkMorsel "c.csv"; ProcessingError "data" OSError; NoDataProcessed].
Proof. compute_done. Qed.



Lemma run_files {L : Library} input_files output_file w :
  fs (process_sales_data input_files output_file w).2 =
  match concat (all_frames (fs w) input_files) with
  | Ok combined_df =>
      match write_file output_file (csv_text combined_df) (fs w) with
      | Ok files => files
      | Raise _ => fs w
      end
  | Raise _ => fs w
  end.
Proof.
  rewrite process_sales_data_spec. simpl.
  destruct (concat _) as [combined|]; simpl; [|done].
  unfold written; simpl. by destruct (write_file _ _ _).
Qed.





(** The file of the example of the specification. *)
Example writer_example :
  fs (Sample.run ["a.csv"] "out.csv" Sample.world) !! "out.csv" =
  Some (File true ("Sales,Date,Region" +:+ Sample.nl +:+ "6.0,2024-01-01,north" +:+ Sample.nl)).
Proof. compute_done. Qed.








(** The spellings of the example. *)
Example spelling_example :
  spelling "PiNk MoRsEl" "pink morsel" /\ spelling "PINK MORSEL" "pink morsel".
Proof.
  split; repeat (first [apply spelling_nil | apply spelling_cons;
                        [first [left; reflexivity | right; split; [split|]; by vm_compute]|]]).
Qed.

(** C10. For every list of input paths, every output path and every
    state of the files, [process_sales_data] returns normally: the
    exceptions of the per-file stages are caught in the loop, and a
    refused write is caught and reported, the files staying as they
    were. *)
Theorem process_sales_data_returns_normally {L : Library} (input_files : list string)
    (output_file : string) (w : World) :
  (process_sales_data input_files output_file w).1 = Ok tt /\
  (exists frames w', for_each input_files [] loop_body w = (Ok frames, w')) /\
  (forall combined_df e,
     combined_frame w input_files = Ok combined_df ->
     write_file output_file (csv_text combined_df) (fs w) = Raise e ->
     fs (process_sales_data input_files output_file w).2 = fs w /\
     last (stdout (process_sales_data input_files output_file w).2) =
       Some (SaveError output_file e)).
Proof.
  split; [|split].
  - by rewrite process_sales_data_spec.
  - rewrite for_each_spec. eauto.
  - intros combined e Hc He. rewrite combined_frame_eq in Hc.
    rewrite process_sales_data_spec. simpl. rewrite Hc. unfold written. simpl. rewrite He.
    split; [done|]. simpl. by rewrite last_snoc.
Qed.

(** A run whose destination is a directory, and one whose destination is
    read-only: the refusal is reported and nothing is raised. *)
Example refused_write_example :
  @process_sales_data Reference.library ["a.csv"] "data" Sample.world =
    (Ok tt, {| fs := fs Sample.world; stdout := [SaveError "data" OSError] |}) /\
  @process_sales_data Reference.library ["a.csv"] "locked.csv" Sample.world =
    (Ok tt, {| fs := fs Sample.world; stdout := [SaveError "locked.csv" OSError] |}).
Proof. split; compute_done. Qed.

(** ** What the Transformer depends on *)

Section Agreement.
Context {L : Library}.

Lemma agree_lookup ds cs df df' c :
  agree ds cs df df' -> c ∈ ds ->
  lookup_column c (columns df) = lookup_column c (columns df').
Proof. intros [H _] Hc. rewrite Forall_forall in H. by apply H. Qed.

Lemma agree_column ds cs df df' c :
  agree ds cs df df' -> c ∈ cs ->
  map (fun ir : Z * Row => (ir.1, cell ir.2 c)) (rows df) =
  map (fun ir : Z * Row => (ir.1, cell ir.2 c)) (rows df').
Proof.
  intros [_ H] Hc. induction H as [|ir ir' l l' [Hi Hcells] _ IH]; simpl; [done|].
  rewrite Forall_forall in Hcells. by rewrite Hi, (Hcells c Hc), IH.
Qed.

Lemma getitem_agree ds cs df df' c :
  agree ds cs df df' -> c ∈ ds -> c ∈ cs -> getitem df c = getitem df' c.
Proof.
  intros H Hd Hc. unfold getitem.
  by rewrite (agree_lookup _ _ _ _ _ H Hd), (agree_column _ _ _ _ _ H Hc).
Qed.

Lemma stored_agree ds cs df df' c s :
  agree ds cs df df' -> c ∈ ds -> stored df c s = stored df' c s.
Proof. intros H Hd. unfold stored. by rewrite (agree_lookup _ _ _ _ _ H Hd). Qed.

Lemma stored_length df c s : length (s_data (stored df c s)) = length (s_data s).
Proof. symmetry. eapply Forall2_length, stored_data. Qed.

Lemma assign_agree c cs (rs rs' : list (Z * Row)) vals :
  length vals = length rs ->
  Forall2 (fun ir ir' => ir.1 = ir'.1 /\ Forall (fun x => cell ir.2 x = cell ir'.2 x) cs)
          rs rs' ->
  Forall2 (fun ir ir' => ir.1 = ir'.1 /\ Forall (fun x => cell ir.2 x = cell ir'.2 x) (c :: cs))
          (assign c rs vals) (assign c rs' vals).
Proof.
  intros Hlen H. revert vals Hlen.
  induction H as [|ir ir' l l' [Hi Hc] _ IH]; intros [|iv vals] Hlen; simpl in *;
    try discriminate; [constructor|].
  constructor; [|apply IH; by inversion Hlen]. simpl. split; [done|]. constructor.
  - rewrite !cell_insert. by destruct (decide (c = c)).
  - eapply Forall_impl; [exact Hc|]. simpl. intros x Hx. rewrite !cell_insert.
    by destruct (decide (c = x)).
Qed.

(** An assignment to a column makes two frames agree on that column. *)
Lemma loc_setitem_agree ds cs df df' c s :
  agree ds cs df df' -> c ∈ ds -> length (s_data s) = length (rows df) ->
  agree ds (c :: cs) (loc_setitem df c s) (loc_setitem df' c s).
Proof.
  intros H Hd Hlen. pose proof (stored_agree _ _ _ _ c s H Hd) as Hst.
  split.
  - cbn [loc_setitem columns]. rewrite <- Hst. destruct H as [H _].
    eapply Forall_impl; [exact H|]. simpl. intros x Hx.
    rewrite !lookup_column_set_dtype. by rewrite Hx.
  - cbn [loc_setitem rows]. rewrite <- Hst. apply assign_agree; [|by destruct H].
    by rewrite stored_length.
Qed.

Lemma project_row_agree cs (r r' : Row) names :
  Forall (fun c => cell r c = cell r' c) cs -> Forall (fun c => c ∈ cs) names ->
  project_row names r = project_row names r'.
Proof.
  intros Hc Hn. rewrite Forall_forall in Hc. unfold project_row. f_equal.
  induction Hn as [|c names Hc' _ IH]; simpl; [done|]. by rewrite (Hc c Hc'), IH.
Qed.

Lemma getitem_list_agree ds cs df df' names :
  agree ds cs df df' -> Forall (fun c => c ∈ ds) names -> Forall (fun c => c ∈ cs) names ->
  getitem_list df names = getitem_list df' names.
Proof.
  intros H Hd Hc. unfold getitem_list.
  match goal with
  | |- rbind (rmapM ?f names) _ = rbind (rmapM ?g names) _ =>
      assert (rmapM f names = rmapM g names) as ->
  end.
  { clear Hc. induction Hd as [|c names Hcd _ IH]; simpl; [done|].
    by rewrite (agree_lookup _ _ _ _ _ H Hcd), IH. }
  destruct (rmapM _ names); simpl; [|done]. f_equal. f_equal.
  destruct H as [_ H]. induction H as [|ir ir' l l' [Hi Hcells] _ IH]; simpl; [done|].
  by rewrite Hi, (project_row_agree _ _ _ _ Hcells Hc), IH.
Qed.

Lemma price_series_agree df df' :
  lookup_column "price" (columns df) = lookup_column "price" (columns df') ->
  Forall2 same_but_dollars (rows df) (rows df') ->
  match getitem df "price", getitem df' "price" with
  | Ok s, Ok s' => replace_dollar s = replace_dollar s'
  | Raise e, Raise e' => e = e'
  | _, _ => False
  end.
Proof.
  intros Hl Hrows. unfold getitem. rewrite Hl.
  destruct (lookup_column "price" (columns df')); [|done].
  unfold replace_dollar; simpl. f_equal. rewrite !List.map_map. simpl.
  induction Hrows as [|ir ir' l l' (Hi & Hp & _) _ IH]; simpl; [done|].
  by rewrite Hi, Hp, IH.
Qed.

(** The Transformer gives one result on two frames that agree on the
    dtypes of the columns it names and, row by row, on the quantity,
    date and region cells and on the price cells without their dollar
    signs. *)
Lemma transform_stage_agree df df' :
  Forall (fun c => lookup_column c (columns df) = lookup_column c (columns df'))
         transform_names ->
  Forall2 same_but_dollars (rows df) (rows df') ->
  transform_stage df = transform_stage df'.
Proof.
  intros Hd Hrows.
  assert (agree transform_names ["quantity"; "date"; "region"] df df') as H0.
  { split; [done|]. eapply Forall2_impl; [exact Hrows|].
    intros ir ir' (Hi & _ & Hq & Hda & Hr). split; [done|]. by repeat constructor. }
  assert (lookup_column "price" (columns df) = lookup_column "price" (columns df')) as Hlp.
  { rewrite Forall_forall in Hd. apply Hd. compute_done. }
  pose proof (price_series_agree _ _ Hlp Hrows) as Hp.
  unfold transform_stage.
  destruct (getitem df "price") as [s1|e1] eqn:E1, (getitem df' "price") as [s1'|e1'] eqn:E1';
    try done; cbn [rbind]; [|by subst].
  rewrite <- Hp.
  destruct (astype_float (replace_dollar s1)) as [price|] eqn:E2; cbn [rbind]; [|done].
  pose proof (Forall2_length _ _ _ (astype_float_spec _ _ _ E1 E2)) as Hlen1.
  assert (agree transform_names ["price"; "quantity"; "date"; "region"]
                (loc_setitem df "price" price) (loc_setitem df' "price" price)) as H1.
  { apply loc_setitem_agree; [exact H0|compute_done|done]. }
  set (df1 := loc_setitem df "price" price) in *.
  set (df1' := loc_setitem df' "price" price) in *.
  rewrite <- (getitem_agree _ _ _ _ "quantity" H1) by compute_done.
  destruct (getitem df1 "quantity") as [s2|] eqn:E3; cbn [rbind]; [|done].
  destruct (to_numeric s2) as [quantity|] eqn:E4; cbn [rbind]; [|done].
  destruct (to_numeric_spec _ _ _ E3 E4) as [_ Hq].
  pose proof (Forall2_length _ _ _ Hq) as Hlen2.
  assert (agree transform_names ["quantity"; "price"; "quantity"; "date"; "region"]
                (loc_setitem df1 "quantity" quantity) (loc_setitem df1' "quantity" quantity)) as H2.
  { apply loc_setitem_agree; [exact H1|compute_done|done]. }
  set (df2 := loc_setitem df1 "quantity" quantity) in *.
  set (df2' := loc_setitem df1' "quantity" quantity) in *.
  rewrite <- (getitem_agree _ _ _ _ "price" H2) by compute_done.
  rewrite <- (getitem_agree _ _ _ _ "quantity" H2) by compute_done.
  destruct (getitem df2 "price") as [s3|] eqn:E5; cbn [rbind]; [|done].
  destruct (getitem df2 "quantity") as [s4|] eqn:E6; cbn [rbind]; [|done].
  destruct (mul_series s3 s4) as [sales|] eqn:E7; cbn [rbind]; [|done].
  destruct (mul_series_spec _ _ _ _ _ _ E5 E6 E7) as [exact Hm].
  pose proof (Forall2_length _ _ _ Hm) as Hlen3.
  assert (agree transform_names ["Sales"; "quantity"; "price"; "quantity"; "date"; "region"]
                (loc_setitem df2 "Sales" sales) (loc_setitem df2' "Sales" sales)) as H3.
  { apply loc_setitem_agree; [exact H2|compute_done|done]. }
  rewrite <- (getitem_list_agree _ _ _ _ ["Sales"; "date"; "region"] H3).
  - done.
  - repeat constructor; compute_done.
  - repeat constructor; compute_done.
Qed.

Lemma mul_value_is_number exact p q s :
  mul_value exact p q = Ok s -> is_number p = true -> is_number q = true -> is_number s = true.
Proof.
  destruct p, q; simpl; try discriminate; intros H; inversion H; subst; try done.
  by destruct exact.
Qed.

End Agreement.

(** ** Further properties of the stages *)

(** X1. The Transformer (lines 35-45) succeeds exactly when its frame has
    the price, quantity, date and region columns and the price and the
    quantity of every row convert; it then returns one record per row,
    in order and under the row's label, with the columns Sales, Date,
    Region: the record holds these three cells and no other, its date
    and its region are those of the row, and its sales cell is a
    number. *)
Theorem transform_succeeds_exactly_when {L : Library} (df : DataFrame) :
  (has_transform_columns (columns df) = true /\
   Forall (fun ir => convertible ir = true) (rows df) <->
   exists df_output, transform_stage df = Ok df_output) /\
  (forall df_output, transform_stage df = Ok df_output ->
     map fst (columns df_output) = ["Sales"; "Date"; "Region"] /\
     map fst (rows df_output) = map fst (rows df) /\
     Forall2 (fun ir o =>
                dom o.2 = ({["Sales"; "Date"; "Region"]} : gset string) /\
                cell o.2 "Date" = cell ir.2 "date" /\
                cell o.2 "Region" = cell ir.2 "region" /\
                is_number (cell o.2 "Sales") = true)
             (rows df) (rows df_output)).
Proof.
  split.
  - split.
    + intros [Hc Hr]. by apply transform_stage_ok.
    + intros [out Hout]. by eapply transform_stage_needs.
  - intros out Hout. pose proof (transform_stage_rows _ _ Hout) as Hrel.
    split; [by eapply transform_stage_columns|]. split.
    + eapply Forall2_map_fst; [exact Hrel|]. by intros ir o [? _].
    + eapply Forall2_impl; [exact Hrel|]. simpl.
      intros ir o (_ & pv & qv & p & q & exact & s0 & s & Hp & Hq & Hhp & Hq' & Hmul & Hhs & Ho).
      rewrite Ho. destruct (output_record_cells s ir.2) as (Hs & Hd & Hr).
      split; [|split; [done|split; [done|]]].
      * unfold output_record. rewrite !dom_insert_L, dom_empty_L. set_solver.
      * rewrite Hs. destruct Hhs as [t Hhs]. eapply held_as_number; [exact Hhs|].
        eapply mul_value_is_number; [exact Hmul| |].
        -- destruct Hhp as [t' Hhp]. by eapply held_as_number.
        -- apply quantity_value_number in Hq.
           destruct Hq' as [->| ->]; [done|by apply upcast_float_number].
Qed.

(** X2. An iteration of the loop appends a frame exactly when the file
    loads, its product column is a text column, the Filter keeps at
    least one row, the four columns of the Transformer are there, and
    the price and the quantity of every kept row convert. *)
Theorem file_contributes_exactly_when {L : Library} (w : World) (path : string)
    (acc : list DataFrame) :
  (exists df_output w', loop_body acc path w = (Ok (acc ++ [df_output]), w')) <->
  (exists df,
     load (fs w) path = Ok df /\
     lookup_column "product" (columns df) = Some object /\
     List.filter pink_row (rows df) <> [] /\
     has_transform_columns (columns df) = true /\
     Forall (fun ir => convertible ir = true) (List.filter pink_row (rows df))).
Proof.
  rewrite loop_body_spec, <- file_outcome_frame. split.
  - intros (out & w' & H). inversion H as [[Hf Hw]]. apply app_inv_head in Hf.
    destruct (file_outcome (fs w) path) as [| | |out']; try discriminate. eauto.
  - intros [out ->]. simpl. eauto.
Qed.

Lemma same_cells_dollars ir ir' : same_cells ir ir' -> same_but_dollars ir ir'.
Proof. intros (Hi & Hp & Hq & Hd & Hr). unfold same_but_dollars. by rewrite Hp. Qed.

(** X3. The Transformer reads the price, quantity, date and region cells
    and nothing else of the rows: on two frames that agree on these
    cells row by row, and in which the columns it names have the same
    dtypes, it gives the same result, the same frame or the same error.
    The cells of a [Sales] column of the input and any further column
    have no effect on the output. *)
Theorem transform_reads_four_columns_only {L : Library} (df df' : DataFrame) :
  Forall (fun c => lookup_column c (columns df) = lookup_column c (columns df'))
         ["price"; "quantity"; "Sales"; "date"; "region"] ->
  Forall2 same_cells (rows df) (rows df') ->
  transform_stage df = transform_stage df'.
Proof.
  intros Hd Hrows. apply transform_stage_agree; [exact Hd|].
  eapply Forall2_impl; [exact Hrows|]. apply same_cells_dollars.
Qed.

Lemma transform_reads_four_columns_only_witness :
  Forall (fun c => lookup_column c (columns (Sample2.with_sales (Sample2.pink_of "a.csv"))) =
                   lookup_column c (columns (Sample2.decorated (Sample2.pink_of "a.csv"))))
         ["price"; "quantity"; "Sales"; "date"; "region"] /\
  Forall2 same_cells (rows (Sample2.with_sales (Sample2.pink_of "a.csv")))
          (rows (Sample2.decorated (Sample2.pink_of "a.csv"))) /\
  @transform_stage Reference.library (Sample2.with_sales (Sample2.pink_of "a.csv")) =
  @transform_stage Reference.library (Sample2.decorated (Sample2.pink_of "a.csv")).
Proof.
  assert (Forall (fun c => lookup_column c (columns (Sample2.with_sales (Sample2.pink_of "a.csv"))) =
                           lookup_column c (columns (Sample2.decorated (Sample2.pink_of "a.csv"))))
                 ["price"; "quantity"; "Sales"; "date"; "region"]) as H1 by compute_done.
  assert (Forall2 same_cells (rows (Sample2.with_sales (Sample2.pink_of "a.csv")))
                  (rows (Sample2.decorated (Sample2.pink_of "a.csv")))) as H2.
  { unfold Sample2.decorated, Sample2.with_sales; simpl.
    generalize (rows (Sample2.pink_of "a.csv")). intros l.
    induction l as [|ir l IH]; simpl; constructor; [|exact IH].
    unfold same_cells; simpl. unfold cell. rewrite !lookup_insert_ne by done.
    by rewrite !lookup_delete_ne by done. }
  split; [exact H1|]. split; [exact H2|].
  exact (transform_reads_four_columns_only _ _ H1 H2).
Defined.

(** X4. Every row of the combined frame holds exactly the three cells
    Sales, Date and Region, whatever columns the input files have, and
    the combined frame has exactly these three columns, in this order. *)
Theorem output_rows_have_three_fields {L : Library} (w : World) (input_files : list string)
    (combined_df : DataFrame) :
  combined_frame w input_files = Ok combined_df ->
  map fst (columns combined_df) = ["Sales"; "Date"; "Region"] /\
  Forall (fun io => dom io.2 = ({["Sales"; "Date"; "Region"]} : gset string)) (rows combined_df).
Proof.
  rewrite combined_frame_eq. intros Hc. split.
  - exact (concat_columns _ _ (all_frames_columns _ _) Hc).
  - apply Forall_forall. intros io Hin.
    destruct (Forall2_lookup_right _ _ _ _ (combined_records _ _ _ Hc) Hin)
      as (ir & _ & o & _ & _ & Hdom).
    exact Hdom.
Qed.

Lemma output_rows_have_three_fields_witness :
  @combined_frame Reference.library Sample.world ["d.csv"; "a.csv"] =
    Ok (Sample.combined_of ["d.csv"; "a.csv"]) /\
  Forall (fun io => dom io.2 = ({["Sales"; "Date"; "Region"]} : gset string))
         (rows (Sample.combined_of ["d.csv"; "a.csv"])).
Proof.
  assert (@combined_frame Reference.library Sample.world ["d.csv"; "a.csv"] =
            Ok (Sample.combined_of ["d.csv"; "a.csv"])) as H by compute_done.
  split; [exact H|].
  exact (proj2 (output_rows_have_three_fields Sample.world _ _ H)).
Defined.

(** X5. A file without a product column fails in the Filter with a
    KeyError on "product", and a file whose product column is not a text
    column with an AttributeError: the iteration prints the error line of
    the file and appends nothing. *)
Theorem product_column_errors {L : Library} (w : World) (path : string)
    (acc : list DataFrame) (df : DataFrame) :
  load (fs w) path = Ok df ->
  (lookup_column "product" (columns df) = None ->
   loop_body acc path w = (Ok acc, log w [ProcessingError path (KeyError "product")])) /\
  (forall d, lookup_column "product" (columns df) = Some d -> d <> object ->
   loop_body acc path w = (Ok acc, log w [ProcessingError path AttributeError])).
Proof.
  intros Hl. destruct (load_exists _ _ _ Hl) as [n Hn].
  rewrite loop_body_spec. unfold file_outcome. rewrite Hn, Hl.
  unfold filter_stage, getitem, str_lower. split.
  - intros ->. simpl. by rewrite app_nil_r.
  - intros d -> Hd. simpl. destruct d; try done; simpl; by rewrite app_nil_r.
Qed.

Lemma product_column_errors_witness :
  @load Reference.library (fs Sample2.world) "f.csv" = Ok (Sample2.frame_of "f.csv") /\
  lookup_column "product" (columns (Sample2.frame_of "f.csv")) = None /\
  @loop_body Reference.library [] "f.csv" Sample2.world =
    (Ok [], log Sample2.world [ProcessingError "f.csv" (KeyError "product")]).
Proof.
  assert (@load Reference.library (fs Sample2.world) "f.csv" = Ok (Sample2.frame_of "f.csv"))
    as H1 by compute_done.
  assert (lookup_column "product" (columns (Sample2.frame_of "f.csv")) = None) as H2
    by compute_done.
  split; [exact H1|]. split; [exact H2|].
  exact (proj1 (product_column_errors Sample2.world "f.csv" [] _ H1) H2).
Defined.

(** The same on a product column of numbers. *)
Example product_column_of_numbers :
  lookup_column "product" (columns (Sample2.frame_of "g.csv")) = Some int64 /\
  @loop_body Reference.library [] "g.csv" Sample2.world =
    (Ok [], log Sample2.world [ProcessingError "g.csv" AttributeError]).
Proof. split; compute_done. Qed.

(** X6. A file that loads, has a text product column and no matching row
    is skipped with the no-match line; the price and quantity columns
    are not looked at, so the file may lack them or hold anything in
    them. *)
Theorem no_match_skips_file {L : Library} (w : World) (path : string)
    (acc : list DataFrame) (df : DataFrame) :
  load (fs w) path = Ok df ->
  lookup_column "product" (columns df) = Some object ->
  List.filter pink_row (rows df) = [] ->
  loop_body acc path w = (Ok acc, log w [NoPinkMorsel path]).
Proof.
  intros Hl Hcol Hnone. destruct (load_exists _ _ _ Hl) as [n Hn].
  rewrite loop_body_spec. unfold file_outcome. rewrite Hn, Hl.
  assert (filter_stage df = Ok {| columns := columns df; rows := List.filter pink_row (rows df) |})
    as -> by (by apply filter_stage_ok_iff).
  unfold empty; simpl. rewrite Hnone. simpl. by rewrite app_nil_r.
Qed.

Lemma no_match_skips_file_witness :
  @load Reference.library (fs Sample.world) "c.csv" = Ok (Sample.frame_of "c.csv") /\
  lookup_column "product" (columns (Sample.frame_of "c.csv")) = Some object /\
  List.filter pink_row (rows (Sample.frame_of "c.csv")) = [] /\
  @loop_body Reference.library [] "c.csv" Sample.world =
    (Ok [], log Sample.world [NoPinkMorsel "c.csv"]).
Proof.
  assert (@load Reference.library (fs Sample.world) "c.csv" = Ok (Sample.frame_of "c.csv"))
    as H1 by compute_done.
  assert (lookup_column "product" (columns (Sample.frame_of "c.csv")) = Some object) as H2
    by compute_done.
  assert (List.filter pink_row (rows (Sample.frame_of "c.csv")) = []) as H3 by compute_done.
  split; [exact H1|]. split; [exact H2|]. split; [exact H3|].
  exact (no_match_skips_file Sample.world "c.csv" [] _ H1 H2 H3).
Defined.

Lemma run_other_files {L : Library} input_files output_file w path :
  path <> output_file ->
  fs (process_sales_data input_files output_file w).2 !! path = fs w !! path.
Proof.
  intros Hne. rewrite run_files.
  destruct (concat _) as [combined|]; [|done].
  unfold write_file. destruct (fs w !! output_file) as [[[|] prior|]|]; try done.
  - by rewrite lookup_insert_ne.
  - by rewrite lookup_insert_ne.
Qed.

(** X7. A run changes no file but the output file: every other path,
    the input files among them, holds after the run what it held before;
    and the loop over the input files changes no file at all, the one
    write comes after it. *)
Theorem only_output_file_changes {L : Library} (w : World) (input_files : list string)
    (output_file path : string) :
  path <> output_file ->
  fs (process_sales_data input_files output_file w).2 !! path = fs w !! path /\
  fs (for_each input_files [] loop_body w).2 = fs w.
Proof.
  intros Hne. split; [by apply run_other_files|]. by rewrite for_each_spec.
Qed.

Lemma only_output_file_changes_witness :
  "a.csv" <> "out.csv" /\
  fs (@process_sales_data Reference.library ["a.csv"; "d.csv"] "out.csv" Sample.world).2 !! "a.csv"
  = fs Sample.world !! "a.csv".
Proof.
  assert ("a.csv" <> "out.csv") as H by compute_done.
  split; [exact H|].
  exact (proj1 (only_output_file_changes Sample.world ["a.csv"; "d.csv"] "out.csv" "a.csv" H)).
Defined.


(** X8. Every iteration of the loop either appends one frame and prints
    nothing, or appends nothing and prints one line, which names the
    file. So after the loop the frames and the printed lines together
    are as many as the input files, and the files named by the lines
    are, in order, input files. *)
Theorem one_frame_or_one_line {L : Library} (w : World) (input_files : list string) :
  (forall path acc,
     (exists df_output, loop_body acc path w = (Ok (acc ++ [df_output]), w)) \/
     (exists ev, event_path ev = Some path /\ loop_body acc path w = (Ok acc, log w [ev]))) /\
  exists frames evs,
    for_each input_files [] loop_body w = (Ok frames, log w evs) /\
    (length frames + length evs = length input_files)%nat /\
    sublist (omap event_path evs) input_files.
Proof.
  split.
  - intros path acc. rewrite loop_body_spec.
    destruct (file_outcome (fs w) path) as [|e| |out]; simpl.
    + right. eexists. split; [|by rewrite app_nil_r]. done.
    + right. eexists. split; [|by rewrite app_nil_r]. done.
    + right. eexists. split; [|by rewrite app_nil_r]. done.
    + left. exists out. by rewrite log_nil.
  - exists (all_frames (fs w) input_files), (all_events (fs w) input_files).
    rewrite for_each_spec. split; [done|]. unfold all_frames, all_events.
    induction input_files as [|path l [IH1 IH2]]; simpl; [split; [done|constructor]|].
    rewrite !length_app, omap_app.
    destruct (file_outcome (fs w) path); simpl; (split; [lia|]);
      try (by apply sublist_skip); by apply sublist_cons.
Qed.

(** The loop of the example: four files without a frame, two with one. *)
Example one_frame_or_one_line_example :
  let r := @for_each _ _ ["missing.csv"; "a.csv"; "b.csv"; "c.csv"; "d.csv"; "data"] []
             (@loop_body Reference.library) Sample.world in
  (length (Sample.frames_after ["missing.csv"; "a.csv"; "b.csv"; "c.csv"; "d.csv"; "data"]),
   omap event_path (stdout r.2)) =
  (2%nat, ["missing.csv"; "b.csv"; "c.csv"; "data"]).
Proof. compute_done. Qed.





(** The file of the example: one row without a price, one without a
    quantity, one complete. *)
Example missing_number_example :
  fs (@process_sales_data Reference.library ["h.csv"] "out.csv" Sample2.world).2 !! "out.csv" =
  Some (File true ("Sales,Date,Region" +:+ Sample.nl +:+ ",2024-01-01,north" +:+ Sample.nl +:+
                   ",2024-01-02,south" +:+ Sample.nl +:+ "6.0,2024-01-03,east" +:+ Sample.nl)).
Proof. compute_done. Qed.

Lemma retained_rows_app {L : Library} files l l' :
  retained_rows files (l ++ l') = retained_rows files l ++ retained_rows files l'.
Proof. unfold retained_rows. apply flat_map_app. Qed.

(** X10. The loop is additive in its list of files: the frames of
    [l ++ l'] are the frames of [l] followed by those of [l'], and the
    output has as many data rows as the two outputs together. Nothing is
    deduplicated: a list given twice doubles the rows. *)
Theorem loop_is_additive {L : Library} (w : World) (l l' : list string) :
  (exists frames frames' w1 w2 w3,
     for_each l [] loop_body w = (Ok frames, w1) /\
     for_each l' [] loop_body w = (Ok frames', w2) /\
     for_each (l ++ l') [] loop_body w = (Ok (frames ++ frames'), w3)) /\
  data_rows w (l ++ l') = (data_rows w l + data_rows w l')%nat /\
  data_rows w (l ++ l) = (2 * data_rows w l)%nat.
Proof.
  split; [|split].
  - exists (all_frames (fs w) l), (all_frames (fs w) l').
    do 3 eexists. rewrite !for_each_spec. repeat split.
    unfold all_frames. by rewrite flat_map_app.
  - by rewrite !data_rows_retained, retained_rows_app, length_app.
  - rewrite !data_rows_retained, retained_rows_app, length_app. lia.
Qed.

(** X11. The dollar signs of a price have no effect, wherever they stand
    and however many they are: on two frames with the same columns
    whose rows differ at most by the dollar signs of their prices, the
    Transformer gives the same result, the same frame or the same
    error. *)
Theorem dollar_signs_are_removed_everywhere {L : Library} (df df' : DataFrame) :
  columns df = columns df' ->
  Forall2 (fun ir ir' =>
             ir.1 = ir'.1 /\
             (cell ir.2 "price" = cell ir'.2 "price" \/
              exists t t', cell ir.2 "price" = VStr t /\ cell ir'.2 "price" = VStr t' /\
                           remove_dollar t = remove_dollar t') /\
             cell ir.2 "quantity" = cell ir'.2 "quantity" /\
             cell ir.2 "date" = cell ir'.2 "date" /\ cell ir.2 "region" = cell ir'.2 "region")
          (rows df) (rows df') ->
  transform_stage df = transform_stage df'.
Proof.
  intros Hcols Hrows. apply transform_stage_agree.
  - rewrite Hcols. apply Forall_forall. by intros c _.
  - eapply Forall2_impl; [exact Hrows|]. simpl.
    intros ir ir' (Hi & Hp & Hq & Hd & Hr). unfold same_but_dollars.
    split; [done|]. split; [|done].
    destruct Hp as [->|(t & t' & -> & -> & Ht)]; [done|]. simpl. by rewrite Ht.
Qed.

Lemma remove_dollar_wrap (t : string) : remove_dollar ("$" +:+ t +:+ "$") = remove_dollar t.
Proof.
  change ("$" +:+ t +:+ "$") with (String "$"%char (t +:+ "$")). cbn [remove_dollar].
  change (Ascii.eqb "$"%char "$"%char) with true. cbn iota.
  induction t as [|c t IH]; [done|].
  change (String c t +:+ "$") with (String c (t +:+ "$")). cbn [remove_dollar].
  rewrite IH. done.
Qed.

Lemma dollar_signs_are_removed_everywhere_witness :
  columns (Sample2.pink_of "a.csv") = columns (Sample2.dollars (Sample2.pink_of "a.csv")) /\
  @transform_stage Reference.library (Sample2.pink_of "a.csv") =
  @transform_stage Reference.library (Sample2.dollars (Sample2.pink_of "a.csv")).
Proof.
  assert (columns (Sample2.pink_of "a.csv") =
          columns (Sample2.dollars (Sample2.pink_of "a.csv"))) as H1 by reflexivity.
  split; [exact H1|].
  apply (dollar_signs_are_removed_everywhere _ _ H1).
  unfold Sample2.dollars; simpl.
  generalize (rows (Sample2.pink_of "a.csv")). intros l.
  induction l as [|ir l IH]; simpl; constructor; [|exact IH]. simpl.
  split; [done|].
  destruct (cell ir.2 "price") as [t| | |] eqn:Hp.
  - rewrite !cell_insert; simpl. split; [|done]. right. exists t, ("$" +:+ t +:+ "$").
    split; [done|]. split; [done|]. symmetry. apply remove_dollar_wrap.
  - rewrite Hp. by split; [left|].
  - rewrite Hp. by split; [left|].
  - rewrite Hp. by split; [left|].
Defined.

(** Four spellings of one price, and the frame of [a.csv] with the price
    of its row written [$$1.50$]. *)
Example dollar_example :
  map remove_dollar ["$1.50"; "1.50$"; "$$1.5$0"; "1.50"] = ["1.50"; "1.50"; "1.50"; "1.50"] /\
  map (fun ir => cell ir.2 "price") (rows (Sample2.dollars (Sample2.pink_of "a.csv"))) =
    [VStr "$$1.50$"] /\
  @transform_stage Reference.library (Sample2.dollars (Sample2.pink_of "a.csv")) =
    Ok (Sample2.output_of (Sample2.pink_of "a.csv")).
Proof. repeat split; compute_done. Qed.

(** X12. The script run as a program (lines 84-99) calls
    [process_sales_data] on the three daily files of the folder [data]
    and the output file of the working directory. It returns normally,
    changes no file but that output file and, when none of the three
    files exists, prints three warnings and the no-data line and writes
    nothing. *)
Theorem main_run {L : Library} (w : World) :
  main = process_sales_data
           ["data/daily_sales_data_0.csv"; "data/daily_sales_data_1.csv";
            "data/daily_sales_data_2.csv"]
           "formatted_pink_morsel_sales.csv" /\
  (main w).1 = Ok tt /\
  (forall path, path <> "formatted_pink_morsel_sales.csv" ->
                fs (main w).2 !! path = fs w !! path) /\
  (fs w !! "data/daily_sales_data_0.csv" = None ->
   fs w !! "data/daily_sales_data_1.csv" = None ->
   fs w !! "data/daily_sales_data_2.csv" = None ->
   (main w).2 = log w [FileNotFound "data/daily_sales_data_0.csv";
                       FileNotFound "data/daily_sales_data_1.csv";
                       FileNotFound "data/daily_sales_data_2.csv"; NoDataProcessed]).
Proof.
  assert (main = process_sales_data
                   ["data/daily_sales_data_0.csv"; "data/daily_sales_data_1.csv";
                    "data/daily_sales_data_2.csv"]
                   "formatted_pink_morsel_sales.csv") as Hmain by reflexivity.
  split; [exact Hmain|]. rewrite Hmain. split; [|split].
  - by rewrite process_sales_data_spec.
  - intros path Hne. by apply run_other_files.
  - intros H0 H1 H2. rewrite process_sales_data_spec. simpl.
    unfold all_frames, all_events, file_outcome; simpl. rewrite H0, H1, H2. simpl.
    unfold log; simpl. by rewrite <- app_assoc.
Qed.



Lemma count_char_app (c : ascii) (a b : string) :
  count_char c (a +:+ b) = (count_char c a + count_char c b)%nat.
Proof.
  induction a as [|d a IH]; [done|].
  change (String d a +:+ b) with (String d (a +:+ b)). cbn [count_char]. rewrite IH. lia.
Qed.

Lemma count_char_double_quotes (c : ascii) (s : string) :
  c <> dquote -> count_char c (double_quotes s) = count_char c s.
Proof.
  intros Hc. induction s as [|d s IH]; [done|]. cbn [double_quotes].
  destruct (Ascii.eqb_spec d dquote) as [->|Hd]; cbn [count_char]; rewrite IH.
  - by destruct (Ascii.eqb_spec c dquote).
  - done.
Qed.

Lemma count_newline_field (s : string) :
  count_char newline (csv_field s) = count_char newline s.
Proof.
  unfold csv_field. destruct (needs_quote s); [|done].
  cbn [count_char]. rewrite count_char_app, count_char_double_quotes by discriminate.
  simpl. lia.
Qed.

Lemma count_newline_join (l : list string) :
  count_char newline (join "," (map csv_field l)) = sum_list (map (count_char newline) l).
Proof.
  induction l as [|x l IH]; [done|].
  destruct l as [|y l].
  - simpl. rewrite count_newline_field. lia.
  - change (join "," (map csv_field (x :: y :: l)))
      with (csv_field x +:+ "," +:+ join "," (map csv_field (y :: l))).
    rewrite !count_char_app, IH, count_newline_field. simpl. lia.
Qed.

Lemma count_newline_line (fields : list string) :
  count_char newline (csv_line fields) = S (sum_list (map (count_char newline) fields)).
Proof.
  unfold csv_line. rewrite count_char_app, count_newline_join. simpl. lia.
Qed.

Lemma count_char_concat_str (c : ascii) (l : list string) :
  count_char c (concat_str l) = sum_list (map (count_char c) l).
Proof.
  induction l as [|x l IH]; [done|]. simpl. by rewrite count_char_app, IH.
Qed.

Lemma sum_list_zero {A} (f : A -> nat) (l : list A) :
  Forall (fun x => f x = 0%nat) l -> sum_list (map f l) = 0%nat.
Proof.
  induction 1 as [|x l Hx _ IH]; [done|].
  change (sum_list (map f (x :: l))) with (f x + sum_list (map f l))%nat. lia.
Qed.

(** X14. The text of the output file has one line feed for the header,
    one for each record, and the line feeds that stand inside the fields
    of the records: a record takes exactly one line of the file unless
    one of its fields holds a line break, which [to_csv] writes inside
    quotes. *)
Theorem output_line_count {L : Library} (w : World) (input_files : list string)
    (combined_df : DataFrame) :
  combined_frame w input_files = Ok combined_df ->
  count_char newline (csv_text combined_df) =
    (1 + length (rows combined_df) + sum_list (map (fun io => breaks_in io.2) (rows combined_df)))%nat /\
  (Forall (fun io => breaks_in io.2 = 0%nat) (rows combined_df) ->
   count_char newline (csv_text combined_df) = S (length (rows combined_df))).
Proof.
  rewrite combined_frame_eq. intros Hc.
  assert (count_char newline (csv_text combined_df) =
          (1 + length (rows combined_df) +
           sum_list (map (fun io => breaks_in io.2) (rows combined_df)))%nat) as Hcount.
  { unfold csv_text. rewrite (concat_columns _ _ (all_frames_columns _ _) Hc).
    rewrite count_char_app, count_newline_line, count_char_concat_str, List.map_map.
    generalize (rows combined_df). intros l. simpl.
    induction l as [|io l IH]; simpl; [done|].
    unfold csv_record at 1. rewrite count_newline_line. simpl.
    unfold breaks_in at 1. simpl in IH. lia. }
  split; [exact Hcount|]. intros Hnone. rewrite Hcount.
  rewrite (sum_list_zero (fun io : Z * Row => breaks_in io.2) _ Hnone). lia.
Qed.

Lemma output_line_count_witness :
  @combined_frame Reference.library Sample2.world ["j.csv"; "a.csv"] =
    Ok (Sample2.combined_of ["j.csv"; "a.csv"]) /\
  count_char newline (@csv_text Reference.library (Sample2.combined_of ["j.csv"; "a.csv"])) =
    (1 + length (rows (Sample2.combined_of ["j.csv"; "a.csv"])) +
     sum_list (map (fun io => @breaks_in Reference.library io.2)
                   (rows (Sample2.combined_of ["j.csv"; "a.csv"]))))%nat.
Proof.
  assert (@combined_frame Reference.library Sample2.world ["j.csv"; "a.csv"] =
            Ok (Sample2.combined_of ["j.csv"; "a.csv"])) as H by compute_done.
  split; [exact H|].
  exact (proj1 (output_line_count Sample2.world _ _ H)).
Defined.

(** Two records on four lines: the region of the first holds a line
    break. *)
Example output_line_count_example :
  length (rows (Sample2.combined_of ["j.csv"; "a.csv"])) = 2%nat /\
  count_char newline (@csv_text Reference.library (Sample2.combined_of ["j.csv"; "a.csv"])) = 4%nat.
Proof. split; compute_done. Qed.
